(** * Tensile-test analyser: mechanical properties from a load/displacement table

    A shallow embedding of src/app.py: [calculate_mechanical_properties]
    (lines 25-63), its caller [update_output] (lines 148-210) and
    [process_csv_data] (lines 11-22), followed by the properties of the
    written specification that concern them and by further properties of
    the code.

    Numbers are IEEE-754 binary64 values, as NumPy's [float64] and Python's
    [float] are: the model uses Rocq's primitive [float] and its operations,
    so every definition below can be evaluated on a concrete table.  NumPy
    reports a division by zero or an invalid operation as a warning and goes
    on with [inf] or [nan]; only Python-level failures (an index out of
    range, an empty reduction, a float power out of range, an exception
    raised by a library) abort the computation, and they are the [exn] of
    the error monad below.

    What the code takes from outside is a parameter of the model: the
    platform's [pow], which Python's float power calls, SciPy's
    [linregress], the decoders of the upload and the rendering with
    matplotlib.  The general theorems hold for every behaviour of these;
    reference models of [pow] and of [linregress] serve to evaluate the
    computation on tables.

    The table of the computation has two numeric columns, modelled as
    columns of dtype float64, the ordered sequences of floats of the
    specification.  pandas reads a column of numbers as float64 when one of
    its cells has a decimal point or an exponent or is empty, and as int64
    when all its cells are integers.  An int64 column is modelled by the
    float values of its cells: NumPy converts them at lines 32, 33 and 53,
    and the integer product of line 29 is the float product as long as the
    loads are below [2 ^ 53] kN in magnitude; larger integer loads, whose
    product wraps around in 64 bits, are outside this model.  So are
    columns with text, of dtype object, on which the quotients of lines
    32-33 raise TypeError. *)

From Stdlib Require Import String Ascii List ZArith Lia Bool.
From Stdlib Require Import Floats.
Import ListNotations.

Local Open Scope float_scope.

(** ** Python exceptions and the error monad *)

Inductive exn : Type :=
| ValueError    (* np.max of an empty array, int() of NaN *)
| IndexError    (* index outside an array *)
| OverflowError (* a float power out of range, int() of an infinity *)
| OtherError (name : string) (* any other exception, by the name of its class *).

Inductive result (A : Type) : Type :=
| Ok    : A -> result A
| Raise : exn -> result A.

Arguments Ok {A} _.
Arguments Raise {A} _.

Definition bind {A B : Type} (c : result A) (k : A -> result B) : result B :=
  match c with
  | Ok a => k a
  | Raise e => Raise e
  end.

Notation "x <- c ;; k" := (bind c (fun x => k))
  (at level 61, c at next level, right associativity).
Notation "' p <- c ;; k" := (bind c (fun x => let 'p := x in k))
  (at level 61, p pattern, c at next level, right associativity).

Definition succeeds {A : Type} (c : result A) : bool :=
  match c with Ok _ => true | Raise _ => false end.

(** ** Constants of the source *)

(** [np.pi], the double nearest to pi. *)
Definition np_pi : float := 0x1.921fb54442d18p+1.
(** [0.1], the fraction of the samples taken as elastic (line 36). *)
Definition elastic_fraction : float := 0x1.999999999999ap-4.
(** [1e-6], added to the stress in the denominator (line 39). *)
Definition epsilon : float := 0x1.0c6f7a0b5ed8dp-20.
(** [deviation_threshold = 0.05] (line 40). *)
Definition deviation_threshold : float := 0x1.999999999999ap-5.

(** ** Arrays *)

(** [a[i]] for a non-negative index. *)
Fixpoint getitem {A : Type} (a : list A) (i : nat) : result A :=
  match a, i with
  | [], _ => Raise IndexError
  | x :: _, O => Ok x
  | _ :: a', S i' => getitem a' i'
  end.

(** [np.where(mask)[0]]: the indices at which [mask] holds, in increasing
    order; [from] is the index of the head of [mask]. *)
Fixpoint np_where_from (from : nat) (mask : list bool) : list nat :=
  match mask with
  | [] => []
  | b :: mask' =>
      if b then from :: np_where_from (S from) mask'
      else np_where_from (S from) mask'
  end.

Definition np_where (mask : list bool) : list nat := np_where_from 0 mask.

(** [np.maximum]: a NaN operand wins, otherwise the larger one; of two
    equal operands (zeros of either sign) the right one is kept: the loop
    computes [a > b ? a : b]. *)
Definition np_maximum (a b : float) : float :=
  if is_nan a then a
  else if is_nan b then b
  else if b <? a then a else b.

(** [np.max]: [np.maximum] folded over the array, which may not be empty.
    NumPy may combine the elements in another order than from left to
    right; this changes nothing but the sign of a maximum that is zero. *)
Definition np_max (a : list float) : result float :=
  match a with
  | [] => Raise ValueError
  | x :: a' => Ok (fold_left np_maximum a' x)
  end.

(** Element-wise binary operation on two arrays of one shape. *)
Fixpoint map2 {A B C : Type} (f : A -> B -> C) (a : list A) (b : list B) : list C :=
  match a, b with
  | x :: a', y :: b' => f x y :: map2 f a' b'
  | _, _ => []
  end.

(** ** Integers and floats *)

(** [float(n)] for a length [n]; NumPy lengths fit a signed 64-bit word. *)
Definition float_of_len (n : nat) : float :=
  of_uint63 (Uint63.of_Z (Z.of_nat n)).

(** [int(x)]: truncation toward zero. *)
Definition int_of_float (x : float) : result Z :=
  match Prim2SF x with
  | S754_zero _ => Ok 0%Z
  | S754_finite s m e =>
      let a := if (0 <=? e)%Z then (Zpos m * 2 ^ e)%Z
               else (Zpos m / 2 ^ (- e))%Z in
      Ok (if s then (- a)%Z else a)
  | S754_infinity _ => Raise OverflowError
  | S754_nan => Raise ValueError
  end.

(** [a[:k]] for a Python integer [k]: a negative [k] counts from the end. *)
Definition slice_to {A : Type} (a : list A) (k : Z) : list A :=
  if (k <? 0)%Z then firstn (length a - Z.to_nat (- k)) a
  else firstn (Z.to_nat k) a.

(** ** The table and the result *)

(** The two columns read from the uploaded table, a row per sample:
    [Load_kN] and [Displacement_mm], both numeric and held as float64
    values.  Columns of one DataFrame have one length. *)
Definition DataFrame : Type := list (float * float).

Definition Load_kN (data : DataFrame) : list float := map fst data.
Definition Displacement_mm (data : DataFrame) : list float := map snd data.

(** The two nested dictionaries of the result (lines 61-62). *)
Module LoadDisplacement.
Record t : Type := { displacement : list float; load : list float }.
End LoadDisplacement.

Module StressStrain.
Record t : Type := { strain : list float; stress : list float }.
End StressStrain.

(** The dictionary returned at lines 55-63. *)
Record Properties : Type := {
  area_mm2 : float;
  youngs_modulus_MPa : float;
  yield_stress_MPa : float;
  uts_MPa : float;
  failure_strain_percent : float;
  load_displacement_data : LoadDisplacement.t;
  stress_strain_data : StressStrain.t
}.

(** ** Python's float power *)

(** [ERANGE], the [errno] of a result out of range. *)
Definition ERANGE : Z := 34.

(** [_Py_ADJUST_ERANGE1] of CPython, applied to the result [x] of a call
    of the C library and to the [errno] it left: an infinite result counts
    as a range error whether or not the library reported one, and a range
    error reported with a result of zero, an underflow, is dropped. *)
Definition Py_ADJUST_ERANGE1 (x : float) (errno : Z) : Z :=
  if (errno =? 0)%Z then (if is_infinity x then ERANGE else 0%Z)
  else if ((errno =? ERANGE)%Z && (x =? 0))%bool then 0%Z
  else errno.

Section Power.

(** [pow(x, 2.0)] of the platform's C library, as a function of [x]: the
    value it returns and the [errno] it leaves, [0] when it reports no
    error.  The code raises to no other power. *)
Variable pow : float -> float * Z.

(** [iv ** 2] for a Python float [iv]: [float_pow] of CPython at the
    exponent [2.0].  NaN, the infinities, the zeros and [1] are answered
    without the library; a negative [iv] is replaced by its opposite, the
    exponent being an even integer; then [pow] is called, and an [errno]
    that remains is raised, as [OverflowError] when it is [ERANGE]. *)
Definition float_pow_2 (iv : float) : result float :=
  if is_nan iv then Ok iv
  else if is_infinity iv then Ok (abs iv)
  else if iv =? 0 then Ok 0
  else
    let iv := if iv <? 0 then - iv else iv in
    if iv =? 1 then Ok 1
    else
      let (ix, errno) := pow iv in
      let errno := Py_ADJUST_ERANGE1 ix errno in
      if (errno =? 0)%Z then Ok ix
      else if (errno =? ERANGE)%Z then Raise OverflowError
      else Raise ValueError.

(** Lines 30-31: [radius_mm = diameter_mm / 2],
    [A_0_mm2 = np.pi * radius_mm**2]. *)
Definition A_0_mm2 (diameter_mm : float) : result float :=
  let radius_mm := diameter_mm / 2 in
  square <- float_pow_2 radius_mm ;;
  Ok (np_pi * square).

End Power.

(** ** calculate_mechanical_properties, stage by stage *)

(** Lines 29 and 32: [load_N = load_kN * 1000], [stress_MPa = load_N / A_0_mm2]. *)
Definition stress_MPa (data : DataFrame) (A_0 : float) : list float :=
  let load_N := map (fun l => l * 1000) (Load_kN data) in
  map (fun f => f / A_0) load_N.

(** Line 33: [strain = displacement_mm / gauge_length_mm]. *)
Definition strain (data : DataFrame) (gauge_length_mm : float) : list float :=
  map (fun d => d / gauge_length_mm) (Displacement_mm data).

(** Line 36: [linear_points = int(len(stress_MPa) * 0.1)]. *)
Definition linear_points (n : nat) : result Z :=
  int_of_float (float_of_len n * elastic_fraction).

(** Line 38: [predicted_stress = slope * strain + intercept]. *)
Definition predicted_stress (slope intercept : float) (strain : list float) : list float :=
  map (fun e => slope * e + intercept) strain.

(** Line 39: [deviation = np.abs(stress_MPa - predicted_stress) / (stress_MPa + 1e-6)]. *)
Definition deviation_at (s p : float) : float := abs (s - p) / (s + epsilon).

Definition deviation (stress predicted : list float) : list float :=
  map2 deviation_at stress predicted.

(** Line 41: [yield_index = np.where(deviation > deviation_threshold)[0][0]]. *)
Definition exceeds (d : float) : bool := deviation_threshold <? d.

Definition yield_index (deviation : list float) : result nat :=
  getitem (np_where (map exceeds deviation)) 0.

Section Calculation.

Variable pow : float -> float * Z.

(** [scipy.stats.linregress], a function of the SciPy library: given the
    abscissae and the ordinates it returns the slope and the intercept of
    the fitted line (its three other results are discarded at line 37), or
    raises. *)
Variable linregress : list float -> list float -> result (float * float).

(** Lines 36-37: the fit over the first [linear_points] samples. *)
Definition linear_fit (strain stress : list float) : result (float * float) :=
  k <- linear_points (length stress) ;;
  linregress (slice_to strain k) (slice_to stress k).

(** Lines 36-41, on the curve built with the area [A_0]: the index of the
    yield point. *)
Definition detect_yield (data : DataFrame) (A_0 gauge_length_mm : float)
  : result nat :=
  let stress := stress_MPa data A_0 in
  let strain := strain data gauge_length_mm in
  '(slope, intercept) <- linear_fit strain stress ;;
  yield_index (deviation stress (predicted_stress slope intercept strain)).

(** Lines 25-63. *)
Definition calculate_mechanical_properties
    (data : DataFrame) (diameter_mm gauge_length_mm : float) : result Properties :=
  let load_kN := Load_kN data in
  let displacement_mm := Displacement_mm data in
  A_0 <- A_0_mm2 pow diameter_mm ;;
  let stress := stress_MPa data A_0 in
  let strain := strain data gauge_length_mm in
  yi <- detect_yield data A_0 gauge_length_mm ;;
  stress_y <- getitem stress yi ;;
  strain_y <- getitem strain yi ;;
  let youngs := stress_y / strain_y in
  uts <- np_max stress ;;
  max_displacement <- np_max displacement_mm ;;
  let failure_strain := max_displacement / gauge_length_mm * 100 in
  Ok {| area_mm2 := A_0;
        youngs_modulus_MPa := youngs;
        yield_stress_MPa := stress_y;
        uts_MPa := uts;
        failure_strain_percent := failure_strain;
        load_displacement_data :=
          {| LoadDisplacement.displacement := displacement_mm;
             LoadDisplacement.load := load_kN |};
        stress_strain_data :=
          {| StressStrain.strain := strain;
             StressStrain.stress := stress |} |}.

End Calculation.

(** ** A reference model of the platform's pow *)

(** Modelled from the C standard (7.12.1, 7.12.7.4): a [pow(x, 2.0)] that
    returns the square, correctly rounded, and reports a range error when
    a finite square overflows or a square that is not zero underflows to
    zero.  Where the square of [x] is not a binary64 number the [pow] of a
    platform may return its other neighbour (that of glibc does at
    [x = 44.015]); the tables of this file are evaluated with the diameter
    6 mm, whose radius has the exact square 9, and with a diameter whose
    square overflows.  The general theorems hold for every [pow]. *)
Definition libm_pow (x : float) : float * Z :=
  let r := x * x in
  (r, if ((is_infinity r && negb (is_infinity x)) || ((r =? 0) && negb (x =? 0)))%bool
      then ERANGE else 0%Z).

(** ** A reference model of SciPy's linregress *)

Definition np_sum (a : list float) : float := fold_left add a 0.

Definition np_mean (a : list float) : float := np_sum a / float_of_len (length a).

Definition np_minimum (a b : float) : float :=
  if is_nan a then a
  else if is_nan b then b
  else if a <? b then a else b.

Definition np_min (a : list float) : result float :=
  match a with
  | [] => Raise ValueError
  | x :: a' => Ok (fold_left np_minimum a' x)
  end.

(** Modelled from the spec: [scipy.stats.linregress], a function of the
    SciPy library, which the repository imports and does not contain.
    Section 4.2 has it compute the ordinary least-squares line, without
    weights; the steps are SciPy's: samples of two lengths are refused; a
    sample of fewer than two points is answered with NaN (SciPy 1.17;
    earlier releases raise [ValueError] on an empty sample, and the general
    theorems cover both); a sample of several points with one abscissa is
    refused; otherwise, with the means [xmean], [ymean] and the biased
    covariances [ssxm], [ssxym] of [np.cov(x, y, bias=1)],
    [slope = ssxym / ssxm] and [intercept = ymean - slope * xmean].  Sums
    run from left to right, where NumPy may associate them otherwise and
    differ in the last place.  The general theorems of this file hold for
    every [linregress]; this one serves to evaluate the computation on
    tables. *)
Definition scipy_linregress (x y : list float) : result (float * float) :=
  if negb (Nat.eqb (length x) (length y)) then Raise ValueError
  else if Nat.ltb (length x) 2 then Ok (nan, nan)
  else
    hi <- np_max x ;;
    lo <- np_min x ;;
    if hi =? lo then Raise ValueError
    else
      let n := float_of_len (length x) in
      let xmean := np_mean x in
      let ymean := np_mean y in
      let dx := map (fun v => v - xmean) x in
      let dy := map (fun v => v - ymean) y in
      let ssxm := np_sum (map2 mul dx dx) * (1 / n) in
      let ssxym := np_sum (map2 mul dx dy) * (1 / n) in
      let slope := ssxym / ssxm in
      let intercept := ymean - slope * xmean in
      Ok (slope, intercept).

(** ** The caller: update_output

    [update_output] (lines 148-210) is the callback that feeds the
    computation: its guards, the decoding of the upload, the computation,
    the rendering of the curves and, further below, the two figures it
    returns.  The text of the report (lines 162-170) is not modelled
    beyond the result and the image it is made of. *)

(** The value of a numeric form field: empty, or a number.  The browser
    holds it as a binary64 value; an integral one reaches Python as an
    [int], which the computation uses through its float value. *)
Inductive field : Type :=
| Empty
| Number (x : float).

(** [isinstance(x, (int, float)) and x > 0] (line 152). *)
Definition positive_number (v : field) : bool :=
  match v with
  | Empty => false
  | Number x => 0 <? x
  end.

Definition number_of (v : field) : float :=
  match v with
  | Empty => nan
  | Number x => x
  end.

(** What the callback shows: a message in red, or the report of a result
    with the image of its curves. *)
Inductive display : Type :=
| Message (text : string)
| Report (results : Properties) (plot_base64 : string).

Section Callback.

Variable pow : float -> float * Z.
Variable linregress : list float -> list float -> result (float * float).

(** [process_csv_data] (lines 11-22): the decoded table, or an error text. *)
Variable process_csv_data : string -> string -> DataFrame + string.

(** [generate_plots] (lines 66-96) draws the two curves with matplotlib
    and returns the PNG image as base64 text, or raises what matplotlib
    raises. *)
Variable generate_plots : LoadDisplacement.t -> StressStrain.t -> result string.

Definition update_output (n_clicks : Z) (contents : option string) (filename : string)
    (diameter gauge_length displacement_rate : field) : result display :=
  match contents with
  | None => Ok (Message "Please upload a file and click Calculate.")
  | Some uploaded =>
      if (n_clicks =? 0)%Z then Ok (Message "Please upload a file and click Calculate.")
      else if negb (forallb positive_number [diameter; gauge_length; displacement_rate])
      then Ok (Message "Inputs must be positive numbers.")
      else
        match process_csv_data uploaded filename with
        | inr error => Ok (Message error)
        | inl data =>
            results <- calculate_mechanical_properties pow linregress data
                         (number_of diameter) (number_of gauge_length) ;;
            plot_base64 <- generate_plots (load_displacement_data results)
                             (stress_strain_data results) ;;
            Ok (Report results plot_base64)
        end
  end.

End Callback.

(** ** Tables used to evaluate the computation *)

(** Twenty samples: ten on a line through the origin, ten on a flatter line. *)
Definition bilinear : DataFrame :=
  [ (1, 1); (2, 2); (3, 3); (4, 4); (5, 5); (6, 6); (7, 7); (8, 8); (9, 9); (10, 10);
    (10.25, 11); (10.5, 12); (10.75, 13); (11, 14); (11.25, 15); (11.5, 16);
    (11.75, 17); (12, 18); (12.25, 19); (12.5, 20) ].

(** Twenty samples on one line through the origin. *)
Definition linear : DataFrame :=
  [ (0, 0); (1, 0.125); (2, 0.25); (3, 0.375); (4, 0.5); (5, 0.625); (6, 0.75);
    (7, 0.875); (8, 1); (9, 1.125); (10, 1.25); (11, 1.375); (12, 1.5);
    (13, 1.625); (14, 1.75); (15, 1.875); (16, 2); (17, 2.125); (18, 2.25);
    (19, 2.375) ].

(** [bilinear] with its largest load and its largest displacement moved to
    the middle of the table, at two different rows. *)
Definition shuffled : DataFrame :=
  [ (1, 1); (2, 2); (3, 3); (4, 4); (5, 5); (6, 6); (7, 7); (8, 8); (9, 9); (10, 10);
    (10.25, 11); (10.5, 12); (12.5, 13); (11, 14); (11.25, 20); (11.5, 16);
    (11.75, 17); (12, 18); (12.25, 19); (10.75, 15) ].

(** The load, in kN, whose stress on a 6 mm specimen is [-1e-6] MPa. *)
Definition tiny_negative_load : float := -0x1.e5bfd5e256361p-26.

(** [bilinear] with a larger sample, on the first line, in its fourth row. *)
Definition spiked : DataFrame :=
  [ (1, 1); (2, 2); (3, 3); (30, 30); (5, 5); (6, 6); (7, 7); (8, 8); (9, 9); (10, 10);
    (10.25, 11); (10.5, 12); (10.75, 13); (11, 14); (11.25, 15); (11.5, 16);
    (11.75, 17); (12, 18); (12.25, 19); (12.5, 20) ].

(** [bilinear] with [tiny_negative_load] in its sixth row. *)
Definition dipped : DataFrame :=
  [ (1, 1); (2, 2); (3, 3); (4, 4); (5, 5); (tiny_negative_load, 6); (7, 7); (8, 8);
    (9, 9); (10, 10);
    (10.25, 11); (10.5, 12); (10.75, 13); (11, 14); (11.25, 15); (11.5, 16);
    (11.75, 17); (12, 18); (12.25, 19); (12.5, 20) ].

(** ** Predicates used in the statements *)

(** Does the computation fail inside the linear fit? *)
Definition fails_in_fit (pow : float -> float * Z)
    (linregress : list float -> list float -> result (float * float))
    (data : DataFrame) (diameter_mm gauge_length_mm : float) : bool :=
  match A_0_mm2 pow diameter_mm with
  | Ok A_0 =>
      negb (succeeds (linear_fit linregress (strain data gauge_length_mm)
                        (stress_MPa data A_0)))
  | Raise _ => false
  end.

(** A form field that holds no number above zero. *)
Definition not_positive (v : field) : Prop :=
  match v with
  | Empty => True
  | Number x => (0 <? x) = false
  end.

(** ** Shapes of binary64 values *)

(** A value that carries the sign [s]: a zero, an infinity or a number. *)
Inductive signed (s : bool) : spec_float -> Prop :=
| signed_zero : signed s (S754_zero s)
| signed_infinity : signed s (S754_infinity s)
| signed_finite m e : signed s (S754_finite s m e).

Inductive nonzero : spec_float -> Prop :=
| nonzero_infinity s : nonzero (S754_infinity s)
| nonzero_finite s m e : nonzero (S754_finite s m e).

(** A float of negative sign ([-0], a negative number, [-inf]), or NaN. *)
Definition negative_or_nan (x : float) : Prop :=
  Prim2SF x = S754_nan \/ signed true (Prim2SF x).

(** ** The upload: process_csv_data *)

(** [s.split(sep)] for a separator of one character: the pieces of [s]
    between its occurrences of [sep], one more than the occurrences. *)
Fixpoint split_on (sep : Ascii.ascii) (s : string) : list string :=
  match s with
  | EmptyString => [EmptyString]
  | String c rest =>
      if Ascii.eqb c sep then EmptyString :: split_on sep rest
      else
        match split_on sep rest with
        | piece :: pieces => String c piece :: pieces
        | [] => [String c EmptyString]
        end
  end.

(** The number of occurrences of a character in a string. *)
Fixpoint occurrences (sep : Ascii.ascii) (s : string) : nat :=
  match s with
  | EmptyString => 0
  | String c rest => (if Ascii.eqb c sep then 1 else 0) + occurrences sep rest
  end.

(** [required_columns] (line 17). *)
Definition required_columns : list string := ["Load_kN"; "Displacement_mm"]%string.

(** [col in data.columns]. *)
Definition has_column (names : list string) (col : string) : bool :=
  existsb (String.eqb col) names.

Section Upload.

(** What the function uses of a pandas DataFrame: its column index. *)
Variable Frame : Type.
Variable columns : Frame -> list string.

(** The library calls of lines 15-16, each returning its value or the text
    of the exception it raises: [base64.b64decode], [bytes.decode('utf-8')]
    and [pd.read_csv] on the decoded text. *)
Variable b64decode : string -> string + string.
Variable utf8_decode : string -> string + string.
Variable read_csv : string -> Frame + string.

(** The text of the [ValueError] raised when a list of [n] items, [n] not
    2, is unpacked into two names (line 14). *)
Variable unpack_message : nat -> string.

(** Lines 14-20, the body of the [try]: the pair returned, or the text of
    the exception raised. *)
Definition process_csv_data_body (contents : string)
  : (option Frame * option string) + string :=
  match split_on ","%char contents with
  | [content_type; content_string] =>
      match b64decode content_string with
      | inr raised => inr raised
      | inl decoded =>
          match utf8_decode decoded with
          | inr raised => inr raised
          | inl text =>
              match read_csv text with
              | inr raised => inr raised
              | inl data =>
                  if negb (forallb (has_column (columns data)) required_columns)
                  then inl (None,
                            Some "CSV must contain 'Load_kN' and 'Displacement_mm' columns."%string)
                  else inl (Some data, None)
              end
          end
      end
  | parts => inr (unpack_message (length parts))
  end.

(** Lines 11-22: [process_csv_data(contents, filename)] returns the pair
    [(data, error)]; every exception of the body is caught at line 21. *)
Definition process_csv_data (contents filename : string)
  : option Frame * option string :=
  match process_csv_data_body contents with
  | inl returned => returned
  | inr raised => (None, Some ("Error processing file: " ++ raised)%string)
  end.

End Upload.

(** [if error:] (line 156): [None] and the empty string are false. *)
Definition truthy (error : option string) : bool :=
  match error with
  | Some (String _ _) => true
  | _ => false
  end.

(** ** The figures returned by update_output *)

Module Figure.
(** The one trace of a figure (lines 173-180, 192-199). *)
Record trace : Type := {
  x : list float;
  y : list float;
  type : string;
  mode : string;
  name : string;
  line_color : string
}.
(** Its layout (lines 181-188, 200-207). *)
Record layout : Type := {
  title_text : string;
  xaxis_title : string;
  yaxis_title : string;
  plot_bgcolor : string
}.
Record t : Type := { data : list trace; fig_layout : layout }.
End Figure.

(** Lines 172-189. *)
Definition load_displacement_fig (results : Properties) : Figure.t :=
  {| Figure.data :=
       [ {| Figure.x := LoadDisplacement.displacement (load_displacement_data results);
            Figure.y := LoadDisplacement.load (load_displacement_data results);
            Figure.type := "scatter";
            Figure.mode := "lines";
            Figure.name := "Load vs. Displacement";
            Figure.line_color := "#1f77b4" |} ];
     Figure.fig_layout :=
       {| Figure.title_text := "Load vs. Displacement Curve";
          Figure.xaxis_title := "Displacement (mm)";
          Figure.yaxis_title := "Load (kN)";
          Figure.plot_bgcolor := "#e6f3ff" |} |}.

(** Lines 191-208. *)
Definition stress_strain_fig (results : Properties) : Figure.t :=
  {| Figure.data :=
       [ {| Figure.x := StressStrain.strain (stress_strain_data results);
            Figure.y := StressStrain.stress (stress_strain_data results);
            Figure.type := "scatter";
            Figure.mode := "lines";
            Figure.name := "Stress vs. Strain";
            Figure.line_color := "#ff7f0e" |} ];
     Figure.fig_layout :=
       {| Figure.title_text := "Stress vs. Strain Curve";
          Figure.xaxis_title := "Strain (unitless)";
          Figure.yaxis_title := "Stress (MPa)";
          Figure.plot_bgcolor := "#fff5e6" |} |}.

(** The second and third values returned by [update_output]: two empty
    dictionaries beside a message (lines 151, 153, 157), the two figures
    beside the report of a result (line 210). *)
Definition figures (shown : display) : option Figure.t * option Figure.t :=
  match shown with
  | Message _ => (None, None)
  | Report results _ => (Some (load_displacement_fig results),
                         Some (stress_strain_fig results))
  end.

(** ** More tables *)

(** [bilinear] with no displacement in its eleventh row. *)
Definition stalled : DataFrame :=
  [ (1, 1); (2, 2); (3, 3); (4, 4); (5, 5); (6, 6); (7, 7); (8, 8); (9, 9); (10, 10);
    (10.25, 0); (10.5, 12); (10.75, 13); (11, 14); (11.25, 15); (11.5, 16);
    (11.75, 17); (12, 18); (12.25, 19); (12.5, 20) ].

(** * Properties *)

(** ** The error monad *)

Lemma bind_Ok {A B : Type} (c : result A) (k : A -> result B) (b : B) :
  bind c k = Ok b -> exists a, c = Ok a /\ k a = Ok b.
Proof.
  destruct c as [a | e]; simpl; intros H.
  - exists a; split; [reflexivity | exact H].
  - discriminate H.
Qed.

(** Splits a successful chain of binds into its successful steps. *)
Ltac ok_inv H :=
  repeat match type of H with
         | bind _ _ = Ok _ =>
             let a := fresh "v" in
             let E := fresh "E" in
             apply bind_Ok in H; destruct H as (a & E & H)
         end.

(** ** Arrays *)

Lemma getitem_nth_error {A : Type} (a : list A) (i : nat) (x : A) :
  getitem a i = Ok x <-> nth_error a i = Some x.
Proof.
  revert i; induction a as [| y a IH]; intros [| i]; simpl;
    try (split; discriminate).
  - split; intros H; injection H as ->; reflexivity.
  - apply IH.
Qed.

Lemma getitem_lt {A : Type} (a : list A) (i : nat) (x : A) :
  getitem a i = Ok x -> (i < length a)%nat.
Proof.
  intros H. apply getitem_nth_error in H.
  apply nth_error_Some. congruence.
Qed.

Lemma getitem_total {A : Type} (a : list A) (i : nat) :
  (i < length a)%nat -> exists x, getitem a i = Ok x.
Proof.
  revert i; induction a as [| y a IH]; intros [| i]; simpl; intros H; try lia.
  - exists y; reflexivity.
  - apply IH; lia.
Qed.

Lemma getitem_map {A B : Type} (f : A -> B) (a : list A) (i : nat) (y : B) :
  getitem (map f a) i = Ok y <-> exists x, getitem a i = Ok x /\ y = f x.
Proof.
  revert i; induction a as [| x a IH]; intros [| i]; simpl.
  - split; [discriminate | intros (x & H & _); discriminate H].
  - split; [discriminate | intros (x & H & _); discriminate H].
  - split.
    + intros H; injection H as <-. exists x; split; reflexivity.
    + intros (x' & H & ->). injection H as ->. reflexivity.
  - apply IH.
Qed.

Lemma getitem_map2 {A B C : Type} (f : A -> B -> C) (a : list A) (b : list B)
    (i : nat) (z : C) :
  getitem (map2 f a b) i = Ok z <->
  exists x y, getitem a i = Ok x /\ getitem b i = Ok y /\ z = f x y.
Proof.
  revert b i; induction a as [| x a IH]; intros [| y b] [| i]; simpl;
    try (split; [discriminate | intros (x' & y' & H1 & H2 & _); discriminate]).
  - split.
    + intros H; injection H as <-. exists x, y; repeat split.
    + intros (x' & y' & H1 & H2 & ->).
      injection H1 as ->; injection H2 as ->; reflexivity.
  - apply IH.
Qed.

Lemma map2_length {A B C : Type} (f : A -> B -> C) (a : list A) (b : list B) :
  length a = length b -> length (map2 f a b) = length a.
Proof.
  revert b; induction a as [| x a IH]; intros [| y b]; simpl; intros H;
    try reflexivity; try discriminate.
  f_equal; apply IH; congruence.
Qed.

(** The indices listed by [np.where] start at [from], increase, and are
    exactly those at which the mask holds. *)
Lemma np_where_from_head (mask : list bool) (from i : nat) :
  getitem (np_where_from from mask) 0 = Ok i ->
  exists j, i = (from + j)%nat /\
            getitem mask j = Ok true /\
            forall j', (j' < j)%nat -> getitem mask j' = Ok false.
Proof.
  revert from; induction mask as [| b mask IH]; intros from; simpl.
  - discriminate.
  - destruct b; simpl.
    + intros H; injection H as <-. exists 0%nat.
      split; [lia | split; [reflexivity | intros j' Hj'; lia]].
    + intros H. destruct (IH _ H) as (j & -> & Hj & Hbefore).
      exists (S j). split; [lia | split; [exact Hj |]].
      intros [| j'] Hlt; [reflexivity | apply Hbefore; lia].
Qed.

Lemma np_where_from_none (mask : list bool) (from : nat) :
  Forall (fun b => b = false) mask -> np_where_from from mask = [].
Proof.
  intros H; revert from; induction H as [| b mask -> _ IH]; intros from; simpl.
  - reflexivity.
  - apply IH.
Qed.

Lemma np_where_from_some (mask : list bool) (from : nat) :
  Exists (fun b => b = true) mask ->
  exists i, getitem (np_where_from from mask) 0 = Ok i.
Proof.
  intros H; revert from; induction H as [b mask -> | b mask _ IH]; intros from; simpl.
  - exists from; reflexivity.
  - destruct b; [exists from; reflexivity | apply IH].
Qed.

(** ** The order of binary64 values

    Comparisons of primitive floats are specified on [spec_float]; the
    lemmas below lift what the analysis needs: away from NaN, [<=?] is a
    total preorder and [<?] its strict part. *)

Module FloatOrder.

Ltac cmp_cases :=
  repeat match goal with
         | |- context [Z.compare ?a ?b] => destruct (Z.compare_spec a b)
         | H : context [Z.compare ?a ?b] |- _ => destruct (Z.compare_spec a b)
         | |- context [Pos.compare_cont Eq ?a ?b] =>
             change (Pos.compare_cont Eq a b) with (Pos.compare a b);
             destruct (Pos.compare_spec a b)
         | H : context [Pos.compare_cont Eq ?a ?b] |- _ =>
             change (Pos.compare_cont Eq a b) with (Pos.compare a b) in H;
             destruct (Pos.compare_spec a b)
         end.

Ltac sf_cases x := destruct x as [[|] | [|] | | [|] ? ?].

Lemma SFleb_trans (x y z : spec_float) :
  SFleb x y = true -> SFleb y z = true -> SFleb x z = true.
Proof.
  unfold SFleb, SFcompare.
  sf_cases x; sf_cases y; try discriminate; sf_cases z;
    try discriminate; try reflexivity; simpl;
    cmp_cases; simpl; intros; subst;
    try reflexivity; try discriminate; try lia.
Qed.

Lemma SFltb_false_SFleb (x y : spec_float) :
  x <> S754_nan -> y <> S754_nan -> SFltb x y = false -> SFleb y x = true.
Proof.
  unfold SFltb, SFleb, SFcompare.
  sf_cases x; sf_cases y; try congruence; try reflexivity; simpl;
    cmp_cases; simpl; intros; subst;
    try reflexivity; try discriminate; try lia.
Qed.

Lemma SFltb_SFleb (x y : spec_float) :
  SFltb x y = true -> SFleb x y = true.
Proof.
  unfold SFltb, SFleb. destruct (SFcompare x y) as [[| |] |]; easy.
Qed.

Lemma SFeqb_refl (x : spec_float) :
  SFeqb x x = match x with S754_nan => false | _ => true end.
Proof.
  unfold SFeqb, SFcompare. sf_cases x; try reflexivity;
    rewrite Z.compare_refl;
    change (Pos.compare_cont Eq m m) with (Pos.compare m m);
    rewrite Pos.compare_refl; reflexivity.
Qed.

Lemma is_nan_spec (x : float) :
  is_nan x = match Prim2SF x with S754_nan => true | _ => false end.
Proof.
  unfold is_nan. rewrite eqb_spec, SFeqb_refl.
  destruct (Prim2SF x); reflexivity.
Qed.

Lemma not_nan (x : float) : is_nan x = false -> Prim2SF x <> S754_nan.
Proof. rewrite is_nan_spec. intros H E. rewrite E in H. discriminate. Qed.

Lemma leb_trans (x y z : float) :
  (x <=? y) = true -> (y <=? z) = true -> (x <=? z) = true.
Proof. rewrite !leb_spec. apply SFleb_trans. Qed.

Lemma leb_refl (x : float) : is_nan x = false -> (x <=? x) = true.
Proof.
  intros H. apply not_nan in H. rewrite leb_spec.
  apply SFltb_false_SFleb; try assumption.
  pose proof (SFeqb_refl (Prim2SF x)) as E.
  unfold SFltb. unfold SFeqb in E.
  destruct (SFcompare (Prim2SF x) (Prim2SF x)) as [[| |] |];
    try reflexivity; destruct (Prim2SF x); congruence.
Qed.

Lemma ltb_false_leb (x y : float) :
  is_nan x = false -> is_nan y = false -> (x <? y) = false -> (y <=? x) = true.
Proof.
  intros Hx Hy. rewrite ltb_spec, leb_spec.
  apply SFltb_false_SFleb; apply not_nan; assumption.
Qed.

Lemma ltb_leb (x y : float) : (x <? y) = true -> (x <=? y) = true.
Proof. rewrite ltb_spec, leb_spec. apply SFltb_SFleb. Qed.

End FloatOrder.

(** ** np.max *)

Lemma np_maximum_choice (a b : float) : np_maximum a b = a \/ np_maximum a b = b.
Proof.
  unfold np_maximum.
  destruct (is_nan a); [left; reflexivity |].
  destruct (is_nan b); [right; reflexivity |].
  destruct (b <? a); [left | right]; reflexivity.
Qed.

Lemma np_maximum_upper (a b : float) :
  is_nan a = false -> is_nan b = false ->
  is_nan (np_maximum a b) = false /\
  (a <=? np_maximum a b) = true /\ (b <=? np_maximum a b) = true.
Proof.
  intros Ha Hb. unfold np_maximum. rewrite Ha, Hb.
  destruct (b <? a) eqn:E.
  - split; [exact Ha | split].
    + apply FloatOrder.leb_refl, Ha.
    + apply FloatOrder.ltb_leb, E.
  - split; [exact Hb | split].
    + apply FloatOrder.ltb_false_leb; assumption.
    + apply FloatOrder.leb_refl, Hb.
Qed.

Lemma np_maximum_nan (a b : float) :
  is_nan (np_maximum a b) = (is_nan a || is_nan b)%bool.
Proof.
  unfold np_maximum.
  destruct (is_nan a) eqn:Ha; [rewrite Ha; reflexivity |].
  destruct (is_nan b) eqn:Hb; [rewrite Hb; reflexivity |].
  destruct (b <? a); [rewrite Ha | rewrite Hb]; reflexivity.
Qed.

Lemma fold_maximum_In (l : list float) (x : float) :
  In (fold_left np_maximum l x) (x :: l).
Proof.
  revert x; induction l as [| y l IH]; intros x; simpl.
  - left; reflexivity.
  - destruct (IH (np_maximum x y)) as [H | H].
    + destruct (np_maximum_choice x y) as [E | E];
        [left | right; left]; congruence.
    + right; right; exact H.
Qed.

Lemma fold_maximum_upper (l : list float) (x : float) :
  is_nan x = false -> Forall (fun y => is_nan y = false) l ->
  forall y, In y (x :: l) -> (y <=? fold_left np_maximum l x) = true.
Proof.
  revert x; induction l as [| z l IH]; intros x Hx Hl y Hy; simpl.
  - destruct Hy as [<- | []]. apply FloatOrder.leb_refl, Hx.
  - inversion Hl as [| z' l' Hz Hl' ]; subst.
    destruct (np_maximum_upper x z Hx Hz) as (Hm & Hxm & Hzm).
    assert (Hacc : forall w, In w (np_maximum x z :: l) ->
                             (w <=? fold_left np_maximum l (np_maximum x z)) = true)
      by (apply IH; assumption).
    destruct Hy as [<- | [<- | Hy]].
    + eapply FloatOrder.leb_trans; [exact Hxm | apply Hacc; left; reflexivity].
    + eapply FloatOrder.leb_trans; [exact Hzm | apply Hacc; left; reflexivity].
    + apply Hacc; right; exact Hy.
Qed.

Lemma fold_maximum_nan (l : list float) (x : float) :
  is_nan (fold_left np_maximum l x) = existsb is_nan (x :: l).
Proof.
  revert x; induction l as [| y l IH]; intros x; simpl.
  - rewrite orb_false_r; reflexivity.
  - rewrite IH. simpl. rewrite np_maximum_nan, orb_assoc. reflexivity.
Qed.

(** [np.max] fails on the empty array only; its result is an element of
    the array; it is NaN exactly when an element is; otherwise it bounds
    every element from above. *)
Lemma np_max_spec (a : list float) (m : float) :
  np_max a = Ok m ->
  In m a /\
  is_nan m = existsb is_nan a /\
  (existsb is_nan a = false -> forall x, In x a -> (x <=? m) = true).
Proof.
  destruct a as [| x a]; simpl; [discriminate |].
  intros H; injection H as <-.
  split; [apply fold_maximum_In |].
  split; [apply fold_maximum_nan |].
  intros Hnan y Hy.
  apply orb_false_elim in Hnan as [Hx Ha].
  apply fold_maximum_upper; try assumption.
  apply Forall_forall. intros z Hz.
  destruct (is_nan z) eqn:E; [| reflexivity].
  assert (existsb is_nan a = true) by (apply existsb_exists; eauto).
  congruence.
Qed.

Lemma np_max_total (a : list float) : a <> [] -> exists m, np_max a = Ok m.
Proof. destruct a as [| x a]; [congruence | intros _; eexists; reflexivity]. Qed.

(** ** Rounding of binary64 sums, products and quotients

    What the analysis needs from the specification of the arithmetic.  For
    the denominator [stress + 1e-6]: a result of [binary_round_aux] carries
    the sign it was given, and it is not a zero when the mantissa is
    positive and the exponent is not below the least one.  For the product
    [n * 0.1]: a result of [binary_round_aux] in the normal range is the
    multiple of the last kept bit nearest to the exact value, and an integer
    below [2 ^ 53] is converted exactly. *)

Module Rounding.

Local Open Scope Z_scope.

Lemma digits2_pos_size (m : positive) : digits2_pos m = Pos.size m.
Proof. induction m; simpl; congruence. Qed.

Lemma digits_log2 (m : positive) : Zpos (digits2_pos m) = Z.log2 (Zpos m) + 1.
Proof.
  rewrite digits2_pos_size.
  destruct m; simpl; try reflexivity; rewrite Pos.add_1_r; reflexivity.
Qed.

Lemma iter_xO (m d : positive) : Zpos (Pos.iter xO m d) = Zpos m * 2 ^ Zpos d.
Proof.
  induction d as [| d IH] using Pos.peano_ind.
  - simpl. rewrite Pos.mul_comm. reflexivity.
  - rewrite Pos.iter_succ, Pos2Z.inj_succ, Z.pow_succ_r by lia.
    rewrite Pos2Z.inj_xO, IH. ring.
Qed.

(** One halving of the mantissa of a shift record. *)
Lemma shr_1_m (mrs : shr_record) :
  0 <= shr_m mrs -> shr_m (shr_1 mrs) = Z.div2 (shr_m mrs).
Proof.
  destruct mrs as [m r s]; simpl.
  destruct m as [| [p | p |] | p]; simpl; intros H; try reflexivity; lia.
Qed.

Lemma iter_shr_1_m (n : positive) (mrs : shr_record) :
  0 <= shr_m mrs ->
  shr_m (iter_pos shr_1 n mrs) = Z.shiftr (shr_m mrs) (Zpos n).
Proof.
  revert mrs; induction n as [n IH | n IH |]; intros mrs Hm; simpl iter_pos.
  - assert (H1 : 0 <= shr_m (shr_1 mrs))
      by (rewrite shr_1_m by assumption; apply Z.div2_nonneg; assumption).
    assert (H2 : 0 <= shr_m (iter_pos shr_1 n (shr_1 mrs)))
      by (rewrite IH by assumption; apply Z.shiftr_nonneg; assumption).
    rewrite IH, IH, shr_1_m by assumption.
    rewrite Z.div2_spec, !Z.shiftr_shiftr by lia.
    f_equal; lia.
  - assert (H2 : 0 <= shr_m (iter_pos shr_1 n mrs))
      by (rewrite IH by assumption; apply Z.shiftr_nonneg; assumption).
    rewrite IH, IH by assumption.
    rewrite Z.shiftr_shiftr by lia. f_equal; lia.
  - rewrite shr_1_m by assumption. apply Z.div2_spec.
Qed.

Lemma shiftr_pos (m : positive) (n : Z) :
  0 <= n <= Z.log2 (Zpos m) -> 0 < Z.shiftr (Zpos m) n.
Proof.
  intros [Hn Hlog]. rewrite Z.shiftr_div_pow2 by assumption.
  apply Z.div_str_pos. split; [apply Z.pow_pos_nonneg; lia |].
  apply Z.le_trans with (2 ^ Z.log2 (Zpos m)).
  - apply Z.pow_le_mono_r; lia.
  - apply Z.log2_spec; lia.
Qed.

Lemma shr_record_of_loc_m (m : Z) (l : location) : shr_m (shr_record_of_loc m l) = m.
Proof. destruct l as [| [| |]]; reflexivity. Qed.

(** Shifting to the canonical exponent keeps a positive mantissa positive
    when the exponent is at least [emin]. *)
Lemma shr_fexp_pos (m : positive) (e : Z) (l : location) :
  emin <= e ->
  exists p, shr_m (fst (shr_fexp prec emax (Zpos m) e l)) = Zpos p /\
            emin <= snd (shr_fexp prec emax (Zpos m) e l).
Proof.
  intros He. unfold shr_fexp, shr, fexp.
  change (SpecFloat.emin prec emax) with (-1074) in *. change prec with 53.
  simpl Zdigits2. rewrite digits_log2.
  pose proof (Z.log2_nonneg (Zpos m)) as Hlog.
  destruct (Z.max (Z.log2 (Zpos m) + 1 + e - 53) (-1074) - e) as [| n | n] eqn:En;
    simpl fst; simpl snd.
  - exists m; split; [apply shr_record_of_loc_m | exact He].
  - rewrite iter_shr_1_m by (rewrite shr_record_of_loc_m; lia).
    rewrite shr_record_of_loc_m.
    assert (Hpos : 0 < Z.shiftr (Zpos m) (Zpos n)) by (apply shiftr_pos; lia).
    destruct (Z.shiftr (Zpos m) (Zpos n)) as [| p | p]; try lia.
    exists p; split; [reflexivity | lia].
  - exists m; split; [apply shr_record_of_loc_m | exact He].
Qed.

Lemma round_nearest_even_pos (p : positive) (l : location) :
  exists q, round_nearest_even (Zpos p) l = Zpos q.
Proof.
  destruct l as [| [| |]]; simpl; try (eexists; reflexivity);
    destruct p; simpl; eexists; reflexivity.
Qed.

Lemma binary_round_aux_signed (s : bool) (m e : Z) (l : location) :
  binary_round_aux prec emax s m e l = S754_nan \/
  signed s (binary_round_aux prec emax s m e l).
Proof.
  unfold binary_round_aux.
  destruct (shr_fexp prec emax m e l) as [mrs' e'].
  destruct (shr_fexp prec emax _ e' loc_Exact) as [mrs'' e''].
  destruct (shr_m mrs''); [right; constructor | | left; reflexivity].
  destruct (e'' <=? emax - prec); right; constructor.
Qed.

Lemma binary_round_aux_nonzero (s : bool) (m : positive) (e : Z) (l : location) :
  emin <= e ->
  signed s (binary_round_aux prec emax s (Zpos m) e l) /\
  nonzero (binary_round_aux prec emax s (Zpos m) e l).
Proof.
  intros He. unfold binary_round_aux.
  destruct (shr_fexp_pos m e l He) as (p & Hp & He').
  destruct (shr_fexp prec emax (Zpos m) e l) as [mrs' e']; simpl in Hp, He'.
  rewrite Hp.
  destruct (round_nearest_even_pos p (loc_of_shr_record mrs')) as (q & ->).
  destruct (shr_fexp_pos q e' loc_Exact He') as (p' & Hp' & _).
  destruct (shr_fexp prec emax (Zpos q) e' loc_Exact) as [mrs'' e'']; simpl in Hp'.
  rewrite Hp'.
  destruct (e'' <=? emax - prec); split; constructor.
Qed.

Lemma binary_round_nonzero (s : bool) (m : positive) (e : Z) :
  emin <= e ->
  signed s (binary_round prec emax s m e) /\
  nonzero (binary_round prec emax s m e).
Proof.
  intros He. unfold binary_round, shl_align.
  assert (Hf : emin <= fexp prec emax (Zpos (digits2_pos m) + e))
    by (unfold fexp; lia).
  destruct (fexp prec emax (Zpos (digits2_pos m) + e) - e);
    apply binary_round_aux_nonzero; assumption.
Qed.

Lemma shr_1_r (mrs : shr_record) :
  0 <= shr_m mrs -> shr_r (shr_1 mrs) = Z.testbit (shr_m mrs) 0.
Proof.
  destruct mrs as [m r s]; simpl.
  destruct m as [| [p | p |] | p]; simpl; intros H; try reflexivity; lia.
Qed.

Lemma iter_shr_1_nonneg (n : positive) (mrs : shr_record) :
  0 <= shr_m mrs -> 0 <= shr_m (iter_pos shr_1 n mrs).
Proof.
  intros H. rewrite iter_shr_1_m by assumption. apply Z.shiftr_nonneg, H.
Qed.

Lemma iter_shr_1_r (n : positive) (mrs : shr_record) :
  0 <= shr_m mrs ->
  shr_r (iter_pos shr_1 n mrs) = Z.testbit (shr_m mrs) (Zpos n - 1).
Proof.
  revert mrs; induction n as [n IH | n IH |]; intros mrs Hm; simpl iter_pos.
  - assert (H1 : 0 <= shr_m (shr_1 mrs))
      by (rewrite shr_1_m by assumption; apply Z.div2_nonneg; assumption).
    pose proof (iter_shr_1_nonneg n _ H1) as H2.
    rewrite IH, iter_shr_1_m, shr_1_m by assumption.
    rewrite Z.div2_spec, Z.shiftr_shiftr, Z.shiftr_spec by lia.
    f_equal; lia.
  - pose proof (iter_shr_1_nonneg n _ Hm) as H2.
    rewrite IH, iter_shr_1_m by assumption.
    rewrite Z.shiftr_spec by lia. f_equal; lia.
  - apply shr_1_r, Hm.
Qed.


Lemma testbit_remainder (a : Z) (n : positive) :
  Z.testbit a (Zpos n - 1) = true -> 2 ^ Zpos n <= 2 * (a mod 2 ^ Zpos n).
Proof.
  intros H. apply Z.testbit_true in H; [| lia].
  assert (Hsplit : 2 ^ Zpos n = 2 ^ (Zpos n - 1) * 2).
  { rewrite Z.mul_comm, <- Z.pow_succ_r by lia. f_equal; lia. }
  rewrite Hsplit.
  assert (Hpos : 0 < 2 ^ (Zpos n - 1)) by (apply Z.pow_pos_nonneg; lia).
  rewrite Z.rem_mul_r by lia. rewrite H.
  pose proof (Z.mod_pos_bound a (2 ^ (Zpos n - 1)) Hpos). lia.
Qed.

(** The first step of [binary_round_aux]: the mantissa is truncated to 53
    bits and rounded to nearest. *)
Lemma round_nearest_even_bounds (P : Z) (n : positive) (mrs : shr_record) :
  0 <= P ->
  shr_m mrs = P / 2 ^ Zpos n ->
  shr_r mrs = Z.testbit P (Zpos n - 1) ->
  let M1 := round_nearest_even (shr_m mrs) (loc_of_shr_record mrs) in
  P / 2 ^ Zpos n <= M1 <= P / 2 ^ Zpos n + 1 /\
  2 * M1 * 2 ^ Zpos n <= 2 * P + 2 ^ Zpos n.
Proof.
  intros HP Hm Hr.
  assert (Hpow : 0 < 2 ^ Zpos n) by (apply Z.pow_pos_nonneg; lia).
  pose proof (Z.div_mod P (2 ^ Zpos n) ltac:(lia)) as Hdm.
  pose proof (Z.mod_pos_bound P _ Hpow) as Hrem.
  destruct mrs as [m r s]; cbn [shr_m shr_r] in *. subst m.
  destruct r.
  - symmetry in Hr. apply testbit_remainder in Hr.
    destruct s; cbv [loc_of_shr_record round_nearest_even]; [lia |].
    destruct (Z.even (P / 2 ^ Zpos n)); lia.
  - destruct s; cbv [loc_of_shr_record round_nearest_even]; lia.
Qed.

Lemma fexp_normal (x : Z) :
  -1074 <= x - 53 -> fexp prec emax x = x - 53.
Proof.
  unfold fexp. change (SpecFloat.emin prec emax) with (-1074). change prec with 53. lia.
Qed.

(** The second step of [binary_round_aux]: a mantissa of 53 or 54 bits is
    brought back to 53 bits. *)
Lemma renormalize (M1 e : Z) :
  2 ^ 52 <= M1 <= 2 ^ 53 -> -1074 <= e -> e + 1 <= 971 ->
  exists (M : positive) (E : Z),
    match shr_m (fst (shr_fexp prec emax M1 e loc_Exact)) with
    | Z0 => S754_zero false
    | Zpos m =>
        if snd (shr_fexp prec emax M1 e loc_Exact) <=? emax - prec
        then S754_finite false m (snd (shr_fexp prec emax M1 e loc_Exact))
        else S754_infinity false
    | Zneg _ => S754_nan
    end = S754_finite false M E /\
    e <= E <= e + 1 /\ Zpos M * 2 ^ (E - e) = M1.
Proof.
  intros HM He Hmax.
  destruct M1 as [| q | q]; try lia.
  unfold shr_fexp. cbn [Zdigits2]. rewrite digits_log2.
  assert (Hlog : Z.log2 (Zpos q) = 52 \/ (Z.log2 (Zpos q) = 53 /\ Zpos q = 2 ^ 53)).
  { destruct (Z.eq_dec (Zpos q) (2 ^ 53)) as [E | NE].
    - right. split; [rewrite E; reflexivity | exact E].
    - left. apply Z.log2_unique; [lia |].
      change (2 ^ Z.succ 52) with (2 ^ 53). lia. }
  change (emax - prec) with 971.
  destruct Hlog as [Hlog | [Hlog Hq]]; rewrite Hlog.
  - rewrite fexp_normal by lia.
    replace (52 + 1 + e - 53 - e) with 0 by lia.
    cbn [shr fst snd shr_record_of_loc shr_m].
    destruct (Z.leb_spec e 971); [| lia].
    exists q, e. rewrite Z.sub_diag. split; [reflexivity | lia].
  - rewrite fexp_normal by lia.
    replace (53 + 1 + e - 53 - e) with 1 by lia.
    cbn [shr fst snd shr_record_of_loc iter_pos].
    rewrite shr_1_m by (cbn [shr_m]; lia). cbn [shr_m].
    rewrite Hq. change (Z.div2 (2 ^ 53)) with (Zpos (2 ^ 52)).
    destruct (Z.leb_spec (e + 1) 971); [| lia].
    exists (2 ^ 52)%positive, (e + 1).
    split; [reflexivity |].
    split; [lia |]. replace (e + 1 - e) with 1 by lia. reflexivity.
Qed.

(** [binary_round_aux] on an exact mantissa of more than 53 bits, away from
    the subnormal and the overflow ranges: the result is the nearest
    multiple of [2 ^ (e + sh)], [sh] being the number of bits dropped. *)
Lemma round_normal (P : positive) (e : Z) (sh : positive) :
  Z.log2 (Zpos P) = 52 + Zpos sh ->
  -1074 <= e -> e + Zpos sh + 1 <= 971 ->
  exists (M1 : Z) (M : positive) (E : Z),
    binary_round_aux prec emax false (Zpos P) e loc_Exact = S754_finite false M E /\
    Zpos P / 2 ^ Zpos sh <= M1 /\
    2 * M1 * 2 ^ Zpos sh <= 2 * Zpos P + 2 ^ Zpos sh /\
    e + Zpos sh <= E <= e + Zpos sh + 1 /\
    Zpos M * 2 ^ (E - (e + Zpos sh)) = M1.
Proof.
  intros Hlog He Hmax.
  unfold binary_round_aux.
  unfold shr_fexp at 1. cbn [Zdigits2]. rewrite digits_log2, Hlog.
  rewrite fexp_normal by lia.
  replace (52 + Zpos sh + 1 + e - 53 - e) with (Zpos sh) by lia.
  cbn [shr].
  set (mrs := iter_pos shr_1 sh (shr_record_of_loc (Zpos P) loc_Exact)).
  assert (Hm : shr_m mrs = Zpos P / 2 ^ Zpos sh).
  { unfold mrs. rewrite iter_shr_1_m by (cbn; lia).
    cbn [shr_record_of_loc shr_m]. apply Z.shiftr_div_pow2. lia. }
  assert (Hr : shr_r mrs = Z.testbit (Zpos P) (Zpos sh - 1)).
  { unfold mrs. rewrite iter_shr_1_r by (cbn; lia). reflexivity. }
  destruct (round_nearest_even_bounds (Zpos P) sh mrs ltac:(lia) Hm Hr)
    as [[Hlo Hhi] Hnear].
  set (M1 := round_nearest_even (shr_m mrs) (loc_of_shr_record mrs)) in *.
  assert (Hpow : 0 < 2 ^ Zpos sh) by (apply Z.pow_pos_nonneg; lia).
  assert (Hrange : 2 ^ 52 <= Zpos P / 2 ^ Zpos sh < 2 ^ 53).
  { pose proof (Z.log2_spec (Zpos P) ltac:(lia)) as [Hl Hu].
    rewrite Hlog in Hl, Hu.
    replace (Z.succ (52 + Zpos sh)) with (53 + Zpos sh) in Hu by lia.
    rewrite Z.pow_add_r in Hl, Hu by lia.
    split.
    - apply Z.div_le_lower_bound; lia.
    - apply Z.div_lt_upper_bound; lia. }
  destruct (renormalize M1 (e + Zpos sh) ltac:(lia) ltac:(lia) ltac:(lia))
    as (M & E & Hres & HE & Hval).
  exists M1, M, E.
  split; [| repeat split; try assumption; lia].
  destruct (shr_fexp prec emax M1 (e + Zpos sh) loc_Exact) as [mrs'' e''].
  exact Hres.
Qed.

(** A mantissa of exactly 53 bits is kept as it is. *)
Lemma binary_round_aux_exact (mz : positive) (ez : Z) :
  Z.log2 (Zpos mz) = 52 -> -1074 <= ez <= 971 ->
  binary_round_aux prec emax false (Zpos mz) ez loc_Exact = S754_finite false mz ez.
Proof.
  intros Hlog He.
  assert (Hshr : forall l, shr_fexp prec emax (Zpos mz) ez l
                           = (shr_record_of_loc (Zpos mz) l, ez)).
  { intros l. unfold shr_fexp. cbn [Zdigits2]. rewrite digits_log2, Hlog.
    rewrite fexp_normal by lia.
    replace (52 + 1 + ez - 53 - ez) with 0 by lia. reflexivity. }
  unfold binary_round_aux. rewrite Hshr.
  cbn [shr_record_of_loc shr_m loc_of_shr_record round_nearest_even].
  rewrite Hshr. cbn [shr_record_of_loc shr_m].
  change (emax - prec) with 971.
  destruct (Z.leb_spec ez 971); [reflexivity | lia].
Qed.

(** The float of a positive integer below [2 ^ 53] is that integer. *)
Lemma binary_round_integer (p : positive) :
  Zpos p < 2 ^ 53 ->
  exists (mz : positive) (a : Z),
    binary_round prec emax false p 0 = S754_finite false mz (- a) /\
    0 <= a <= 52 /\ Z.log2 (Zpos mz) = 52 /\ Zpos mz = Zpos p * 2 ^ a /\
    (2 ^ 52 <= Zpos p \/ 1 <= a).
Proof.
  intros Hp.
  assert (Hlog : 0 <= Z.log2 (Zpos p) <= 52).
  { split; [apply Z.log2_nonneg |].
    assert (Z.log2 (Zpos p) < 53) by (apply Z.log2_lt_pow2; lia). lia. }
  pose proof (Z.log2_spec (Zpos p) ltac:(lia)) as [Hl Hu].
  unfold binary_round. rewrite digits_log2, fexp_normal by lia.
  unfold shl_align.
  destruct (Z.log2 (Zpos p) + 1 + 0 - 53 - 0) as [| d | d] eqn:Ed; try lia.
  - exists p, 0. assert (Hlog52 : Z.log2 (Zpos p) = 52) by lia.
    rewrite binary_round_aux_exact by (assumption || lia).
    rewrite Hlog52 in Hl.
    repeat split; lia.
  - assert (Hmz : Zpos (Pos.iter xO p d) = Zpos p * 2 ^ Zpos d) by apply iter_xO.
    assert (Hpow : 0 < 2 ^ Zpos d) by (apply Z.pow_pos_nonneg; lia).
    assert (Hlogmz : Z.log2 (Zpos (Pos.iter xO p d)) = 52).
    { rewrite Hmz, <- Z.shiftl_mul_pow2, Z.log2_shiftl by lia. lia. }
    exists (Pos.iter xO p d), (Zpos d).
    rewrite binary_round_aux_exact by (assumption || lia).
    repeat split; try lia.
    f_equal; lia.
Qed.

End Rounding.

(** ** The sign of the deviation *)

Module Deviation.

Import Rounding.

Lemma mantissa_of_normal (m : positive) (e : Z) :
  bounded prec emax m e = true -> (emin < e)%Z -> (2 ^ 52 <= Zpos m)%Z.
Proof.
  unfold bounded, canonical_mantissa, fexp.
  change (SpecFloat.emin prec emax) with (-1074)%Z. change prec with 53%Z.
  intros H He. apply andb_prop in H as [H _]. apply Z.eqb_eq in H.
  rewrite digits_log2 in H.
  assert (Hlog : Z.log2 (Zpos m) = 52%Z) by lia.
  rewrite <- Hlog. apply Z.log2_spec. lia.
Qed.

Lemma SFltb_negative_finite (m m0 : positive) (e e0 : Z) :
  SFltb (S754_finite true m e) (S754_finite true m0 e0) = true ->
  (e = e0 /\ Zpos m0 < Zpos m)%Z \/ (e0 < e)%Z.
Proof.
  unfold SFltb, SFcompare.
  destruct (Z.compare_spec e e0); try discriminate; [| auto].
  change (Pos.compare_cont Eq m m0) with (Pos.compare m m0).
  destruct (Pos.compare_spec m m0); try discriminate.
  intros _; left; split; [assumption | lia].
Qed.

(** The exact sum of a negative number [-m * 2^e] and of a smaller
    positive one [m0 * 2^e0], as the integer multiple of [2 ^ min e e0]
    that [SFadd] rounds. *)
Lemma exact_sum_negative (m m0 : positive) (e e0 : Z) :
  bounded prec emax m e = true ->
  (Zpos m0 < 2 ^ 53)%Z -> (emin <= e0)%Z ->
  SFltb (S754_finite true m e) (S754_finite true m0 e0) = true ->
  exists p,
    (cond_Zopp true (Zpos (fst (shl_align m e (Z.min e e0)))) +
     cond_Zopp false (Zpos (fst (shl_align m0 e0 (Z.min e e0)))))%Z
    = Zneg p /\ (emin <= Z.min e e0)%Z.
Proof.
  intros V Hm0 He0 H.
  apply SFltb_negative_finite in H.
  change (SpecFloat.emin prec emax) with (-1074)%Z in *.
  unfold shl_align. cbv [cond_Zopp].
  destruct H as [[-> Hm] | Hgt].
  - rewrite Z.min_id, Z.sub_diag. cbv [fst].
    destruct (- Zpos m + Zpos m0)%Z as [| p | p] eqn:Ep; try lia.
    exists p; split; [reflexivity | lia].
  - rewrite Z.min_r, Z.sub_diag by lia. cbv [fst].
    pose proof (mantissa_of_normal m e V) as Hm.
    change (SpecFloat.emin prec emax) with (-1074)%Z in Hm.
    assert (Hm' : (2 ^ 52 <= Zpos m)%Z) by (apply Hm; lia).
    destruct (e0 - e)%Z as [| d | d] eqn:Ed; try lia.
    rewrite iter_xO.
    assert (Hd : (2 ^ 1 <= 2 ^ Zpos d)%Z) by (apply Z.pow_le_mono_r; lia).
    assert (Hprod : (2 ^ 52 * 2 ^ 1 <= Zpos m * 2 ^ Zpos d)%Z)
      by (apply Z.mul_le_mono_nonneg; lia).
    destruct (- (Zpos m * 2 ^ Zpos d) + Zpos m0)%Z as [| p | p] eqn:Ep; try lia.
    exists p; split; [reflexivity | lia].
Qed.

(** Line 39, the denominator: a stress below [-1e-6] makes it negative. *)
Lemma denominator_negative (s : float) :
  (s <? - epsilon) = true -> (s + epsilon <? 0) = true.
Proof.
  intros H. rewrite ltb_spec in H. rewrite ltb_spec, add_spec.
  change (Prim2SF (- epsilon)) with (S754_finite true 4722366482869645 (-72)) in H.
  change (Prim2SF epsilon) with (S754_finite false 4722366482869645 (-72)).
  change (Prim2SF 0) with (S754_zero false).
  pose proof (Prim2SF_valid s) as V.
  destruct (Prim2SF s) as [[|] | [|] | | [|] m e]; try discriminate H.
  - reflexivity.
  - destruct (exact_sum_negative m 4722366482869645 e (-72) V) as (p & Hp & Hmin);
      [reflexivity | discriminate | exact H |].
    unfold SF64add, SFadd. rewrite Hp. cbv [binary_normalize].
    destruct (binary_round_nonzero true p _ Hmin) as [Hs Hn].
    destruct Hs; inversion Hn; reflexivity.
Qed.

Lemma exponent_at_least_emin (m : positive) (e : Z) :
  bounded prec emax m e = true -> (emin <= e)%Z.
Proof.
  unfold bounded, canonical_mantissa, fexp.
  intros H. apply andb_prop in H as [H _]. apply Z.eqb_eq in H. lia.
Qed.

(** Line 39, the denominator: a stress that is not negative makes it
    positive. *)
Lemma denominator_positive (s : float) :
  (0 <=? s) = true -> (0 <? s + epsilon) = true.
Proof.
  intros H. rewrite leb_spec in H. rewrite ltb_spec, add_spec.
  change (Prim2SF epsilon) with (S754_finite false 4722366482869645 (-72)).
  change (Prim2SF 0) with (S754_zero false) in *.
  pose proof (Prim2SF_valid s) as V.
  destruct (Prim2SF s) as [[|] | [|] | | [|] m e]; try discriminate H;
    try reflexivity.
  pose proof (exponent_at_least_emin m e V) as He.
  unfold SF64add, SFadd. cbv [cond_Zopp].
  rewrite <- Pos2Z.inj_add. cbv [binary_normalize].
  assert (Hmin : (emin <= Z.min e (-72))%Z).
  { change (SpecFloat.emin prec emax) with (-1074)%Z in *. lia. }
  destruct (binary_round_nonzero false
              (fst (shl_align m e (Z.min e (-72))) +
               fst (shl_align 4722366482869645 (-72) (Z.min e (-72))))
              _ Hmin) as [Hs Hn].
  destruct Hs; inversion Hn; reflexivity.
Qed.

(** Line 39, the quotient: over a negative denominator it is of negative
    sign, or NaN. *)
Lemma quotient_negative (n d : float) :
  (d <? 0) = true -> negative_or_nan (abs n / d).
Proof.
  intros H. rewrite ltb_spec in H. unfold negative_or_nan.
  rewrite div_spec, abs_spec.
  change (Prim2SF 0) with (S754_zero false) in H.
  destruct (Prim2SF d) as [[|] | [|] | | [|] md ed]; try discriminate H;
    destruct (Prim2SF n) as [sn | sn | | sn mn en]; simpl;
    try (left; reflexivity); try (right; constructor).
  unfold SF64div, SFdiv.
  destruct (SFdiv_core_binary prec emax (Zpos mn) en (Zpos md) ed) as [[mz ez] lz].
  apply binary_round_aux_signed.
Qed.

(** A value of negative sign, or NaN, is not above the threshold, is not
    positive, and is NaN or at most zero. *)
Lemma negative_not_exceeding (x : float) :
  negative_or_nan x ->
  exceeds x = false /\ (0 <? x) = false /\ (is_nan x = true \/ (x <=? 0) = true).
Proof.
  unfold exceeds. rewrite !ltb_spec, leb_spec, FloatOrder.is_nan_spec.
  change (Prim2SF deviation_threshold)
    with (S754_finite false 7205759403792794 (-57)).
  change (Prim2SF 0) with (S754_zero false).
  intros [-> | H].
  - repeat split; left; reflexivity.
  - destruct H; repeat split; right; reflexivity.
Qed.

End Deviation.

(** ** The length of the elastic prefix *)

Module Tenth.

Import Rounding.
Local Open Scope Z_scope.

(** The arithmetic of [int(n * 0.1)]: [M1] is the product of [n * w] by the
  mantissa of [0.1], rounded to a multiple of [S]; dividing it by [T]
  gives the quotient of [n] by ten. *)
Lemma tenth_arithmetic (n w S T M1 : Z) :
0 < n < 2 ^ 52 -> 2 <= w -> 0 < S <= 2 ^ 53 -> 0 < T ->
T * S = w * 2 ^ 56 ->
n * w * 7205759403792794 / S <= M1 ->
2 * M1 * S <= 2 * (n * w * 7205759403792794) + S ->
M1 / T = n / 10.
Proof.
intros Hn Hw HS HT HTS Hlo Hnear.
pose proof (Z.div_mod n 10 ltac:(lia)) as Hdm.
pose proof (Z.mod_pos_bound n 10 ltac:(lia)) as Hrem.
set (q := n / 10) in *.
assert (Hq1 : q * 2 ^ 56 <= n * 7205759403792794) by lia.
assert (Hq2 : n * 7205759403792794 + 2 ^ 51 < (q + 1) * 2 ^ 56) by lia.
assert (Hq1w : q * 2 ^ 56 * w <= n * 7205759403792794 * w)
  by (apply Z.mul_le_mono_nonneg_r; lia).
assert (Hq2w : (n * 7205759403792794 + 2 ^ 51) * w < (q + 1) * 2 ^ 56 * w)
  by (apply Z.mul_lt_mono_pos_r; lia).
assert (Hlow : q * T <= M1).
{ apply Z.le_trans with (n * w * 7205759403792794 / S); [| exact Hlo].
  apply Z.div_le_lower_bound; [lia |].
  replace (S * (q * T)) with (q * (T * S)) by ring. rewrite HTS. lia. }
assert (Hhigh : M1 < (q + 1) * T).
{ apply (Z.mul_lt_mono_pos_r (2 * S)); [lia |].
  replace ((q + 1) * T * (2 * S)) with (2 * (q + 1) * (T * S)) by ring.
  rewrite HTS. lia. }
symmetry. apply (Z.div_unique M1 T q (M1 - q * T)); lia.
Qed.

(** Line 36 in binary64: for every length below [2 ^ 52], [int(n * 0.1)] is
  the integer quotient of [n] by ten. *)
Lemma int_of_tenth (n : Z) :
0 <= n < 2 ^ 52 ->
int_of_float (of_uint63 (Uint63.of_Z n) * elastic_fraction)%float = Ok (n / 10).
Proof.
intros Hn. unfold int_of_float.
rewrite mul_spec, of_uint63_spec, Uint63.of_Z_spec.
rewrite Z.mod_small by (change Uint63Axioms.wB with (2 ^ 63); lia).
change (Prim2SF elastic_fraction) with (S754_finite false 7205759403792794 (-56)).
destruct n as [| p | p]; [reflexivity | | lia].
cbn [binary_normalize].
destruct (binary_round_integer p ltac:(lia)) as (mz & a & -> & Ha & Hlog & Hmz & Hbig).
unfold SF64mul, SFmul. cbn [xorb].
pose proof (Z.log2_spec (Zpos mz) ltac:(lia)) as [Hl Hu]. rewrite Hlog in Hl, Hu.
change (2 ^ Z.succ 52) with (2 ^ 53) in Hu.
set (P := (mz * 7205759403792794)%positive).
assert (HP : Zpos P = Zpos p * 2 ^ a * 7205759403792794)
  by (unfold P; rewrite Pos2Z.inj_mul, Hmz; reflexivity).
assert (HPlog : 104 <= Z.log2 (Zpos P) < 106).
{ split.
  - apply Z.log2_le_pow2; lia.
  - apply Z.log2_lt_pow2; lia. }
destruct (Z.log2 (Zpos P) - 52) as [| sh | sh] eqn:Esh; try lia.
destruct (round_normal P (- a + -56) sh ltac:(lia) ltac:(lia) ltac:(lia))
  as (M1 & M & E & -> & Hlo & Hnear & HE & Hval).
destruct (Z.leb_spec 0 E) as [Hpos | Hneg]; [lia |].
f_equal.
assert (Hk : 0 < 2 ^ (E - (- a + -56 + Zpos sh))) by (apply Z.pow_pos_nonneg; lia).
assert (HT : 0 < 2 ^ (- E)) by (apply Z.pow_pos_nonneg; lia).
assert (Hsplit : 2 ^ (- (- a + -56 + Zpos sh))
                 = 2 ^ (- E) * 2 ^ (E - (- a + -56 + Zpos sh))).
{ rewrite <- Z.pow_add_r by lia. f_equal; lia. }
rewrite <- (Z.div_mul_cancel_r _ _ (2 ^ (E - (- a + -56 + Zpos sh)))) by lia.
rewrite Hval, <- Hsplit.
apply (tenth_arithmetic (Zpos p) (2 ^ a) (2 ^ Zpos sh)).
- lia.
- change 2 with (2 ^ 1) at 1. apply Z.pow_le_mono_r; lia.
- split; [apply Z.pow_pos_nonneg; lia | apply Z.pow_le_mono_r; lia].
- apply Z.pow_pos_nonneg; lia.
- rewrite <- !Z.pow_add_r by lia. f_equal; lia.
- rewrite <- HP. exact Hlo.
- rewrite <- HP. exact Hnear.
Qed.

(** Beyond that bound the product can round up to the next integer. *)
Lemma int_of_tenth_beyond :
int_of_float (of_uint63 (Uint63.of_Z 6755399441055749) * elastic_fraction)%float
= Ok 675539944105575 /\
6755399441055749 / 10 = 675539944105574.
Proof. split; vm_compute; reflexivity. Qed.

End Tenth.

(** Line 36 on every length below [2 ^ 52]. *)
Lemma linear_points_tenth (n : nat) :
  (Z.of_nat n < 2 ^ 52)%Z -> linear_points n = Ok (Z.of_nat n / 10)%Z.
Proof.
  intros Hn. unfold linear_points, float_of_len.
  apply Tenth.int_of_tenth. lia.
Qed.

(** ** NaN through the deviation *)

Module NaN.

Lemma is_nan_true (x : float) : is_nan x = true <-> Prim2SF x = S754_nan.
Proof.
  rewrite FloatOrder.is_nan_spec.
  destruct (Prim2SF x); split; intros H; try reflexivity; discriminate H.
Qed.

Lemma mul_l (x y : float) : is_nan x = true -> is_nan (x * y) = true.
Proof.
  rewrite !is_nan_true, mul_spec. intros ->. reflexivity.
Qed.

Lemma add_l (x y : float) : is_nan x = true -> is_nan (x + y) = true.
Proof.
  rewrite !is_nan_true, add_spec. intros ->. reflexivity.
Qed.

Lemma sub_r (x y : float) : is_nan y = true -> is_nan (x - y) = true.
Proof.
  rewrite !is_nan_true, sub_spec. intros ->.
  destruct (Prim2SF x); reflexivity.
Qed.

Lemma abs_nan (x : float) : is_nan x = true -> is_nan (abs x) = true.
Proof.
  rewrite !is_nan_true, abs_spec. intros ->. reflexivity.
Qed.

Lemma div_l (x y : float) : is_nan x = true -> is_nan (x / y) = true.
Proof.
  rewrite !is_nan_true, div_spec. intros ->. reflexivity.
Qed.

Lemma not_exceeding (x : float) : is_nan x = true -> exceeds x = false.
Proof.
  rewrite is_nan_true. unfold exceeds. rewrite ltb_spec. intros ->.
  change (Prim2SF deviation_threshold)
    with (S754_finite false 7205759403792794 (-57)).
  reflexivity.
Qed.

Lemma add_r (x y : float) : is_nan y = true -> is_nan (x + y) = true.
Proof.
  rewrite !is_nan_true, add_spec. intros ->.
  destruct (Prim2SF x); reflexivity.
Qed.

Lemma sub_l (x y : float) : is_nan x = true -> is_nan (x - y) = true.
Proof. rewrite !is_nan_true, sub_spec. intros ->. reflexivity. Qed.

(** A fitted line of NaN slope or NaN intercept makes every deviation NaN. *)
Lemma line_nan (slope intercept : float) (stress strain : list float) :
  (is_nan slope || is_nan intercept)%bool = true ->
  Forall (fun x => is_nan x = true)
         (deviation stress (predicted_stress slope intercept strain)).
Proof.
  intros H.
  assert (Hline : forall e, is_nan (slope * e + intercept) = true).
  { intros e. apply orb_true_iff in H as [Hs | Hi].
    - apply add_l, mul_l, Hs.
    - apply add_r, Hi. }
  unfold deviation, predicted_stress.
  revert strain; induction stress as [| s stress IH]; intros [| e strain]; simpl;
    try constructor.
  - unfold deviation_at. apply div_l, abs_nan, sub_r, Hline.
  - apply IH.
Qed.

End NaN.

(** ** The stages of the computation *)

Lemma stress_MPa_length (data : DataFrame) (A_0 : float) :
  length (stress_MPa data A_0) = length data.
Proof. unfold stress_MPa, Load_kN. rewrite !length_map. reflexivity. Qed.

Lemma strain_length (data : DataFrame) (g : float) :
  length (strain data g) = length data.
Proof. unfold strain, Displacement_mm. rewrite !length_map. reflexivity. Qed.

Lemma stress_MPa_getitem (data : DataFrame) (A_0 : float) (i : nat) (l x : float) :
  getitem data i = Ok (l, x) ->
  getitem (stress_MPa data A_0) i = Ok (l * 1000 / A_0).
Proof.
  intros H. unfold stress_MPa, Load_kN.
  apply getitem_map. eexists; split; [| reflexivity].
  apply getitem_map. eexists; split; [| reflexivity].
  apply getitem_map. exists (l, x); split; [exact H | reflexivity].
Qed.

Lemma strain_getitem (data : DataFrame) (g : float) (i : nat) (l x : float) :
  getitem data i = Ok (l, x) -> getitem (strain data g) i = Ok (x / g).
Proof.
  intros H. unfold strain, Displacement_mm.
  apply getitem_map. eexists; split; [| reflexivity].
  apply getitem_map. exists (l, x); split; [exact H | reflexivity].
Qed.

(** Line 41 read backwards: the index found is the first one whose
    deviation is above the threshold. *)
Lemma yield_index_first (dev : list float) (yi : nat) :
  yield_index dev = Ok yi ->
  (exists x, getitem dev yi = Ok x /\ exceeds x = true) /\
  (forall j x, (j < yi)%nat -> getitem dev j = Ok x -> exceeds x = false).
Proof.
  unfold yield_index, np_where. intros H.
  apply np_where_from_head in H as (j & -> & Hj & Hbefore). simpl.
  split.
  - apply getitem_map in Hj as (x & Hx & Ex). exists x; split; [exact Hx | congruence].
  - intros j' x Hlt Hx.
    assert (Hmask : getitem (map exceeds dev) j' = Ok (exceeds x))
      by (apply getitem_map; exists x; split; [exact Hx | reflexivity]).
    rewrite (Hbefore j' Hlt) in Hmask. congruence.
Qed.

(** Line 41 when no deviation is above the threshold: the array of
    indices is empty and its element 0 does not exist. *)
Lemma yield_index_none (dev : list float) :
  Forall (fun x => exceeds x = false) dev -> yield_index dev = Raise IndexError.
Proof.
  intros H. unfold yield_index, np_where.
  rewrite np_where_from_none; [reflexivity |].
  apply Forall_map. exact H.
Qed.

Lemma yield_index_some (dev : list float) :
  Exists (fun x => exceeds x = true) dev -> exists yi, yield_index dev = Ok yi.
Proof.
  intros H. unfold yield_index, np_where.
  apply np_where_from_some, Exists_map. exact H.
Qed.

(** Python's float power at the exponent 2 raises [OverflowError], or
    [ValueError] should the library report another error than a range
    error; nothing else. *)
Lemma float_pow_2_raise (pow : float -> float * Z) (x : float) (e : exn) :
  float_pow_2 pow x = Raise e -> e = OverflowError \/ e = ValueError.
Proof.
  unfold float_pow_2. cbv zeta.
  destruct (is_nan x); [discriminate |].
  destruct (is_infinity x); [discriminate |].
  destruct (x =? 0); [discriminate |].
  destruct ((if x <? 0 then - x else x) =? 1); [discriminate |].
  destruct (pow _) as [ix errno].
  destruct (Py_ADJUST_ERANGE1 ix errno =? 0)%Z; [discriminate |].
  destruct (Py_ADJUST_ERANGE1 ix errno =? ERANGE)%Z; intros H; injection H as <-; auto.
Qed.

(** Where the library is called: on the magnitude of a number that is
    neither zero nor one. *)
Lemma float_pow_2_call (pow : float -> float * Z) (x ix : float) (errno : Z) :
  is_nan x = false -> is_infinity x = false -> (x =? 0) = false ->
  ((if x <? 0 then - x else x) =? 1) = false ->
  pow (if x <? 0 then - x else x) = (ix, errno) ->
  float_pow_2 pow x
  = if (Py_ADJUST_ERANGE1 ix errno =? 0)%Z then Ok ix
    else if (Py_ADJUST_ERANGE1 ix errno =? ERANGE)%Z then Raise OverflowError
    else Raise ValueError.
Proof.
  intros Hnan Hinf Hzero Hone Hpow. unfold float_pow_2. cbv zeta.
  rewrite Hnan, Hinf, Hzero, Hone, Hpow. reflexivity.
Qed.

(** An infinite result of the library is a range error, reported or not. *)
Lemma adjust_infinite (ix : float) (errno : Z) :
  is_infinity ix = true -> errno = 0%Z \/ errno = ERANGE ->
  Py_ADJUST_ERANGE1 ix errno = ERANGE.
Proof.
  intros Hinf [-> | ->]; unfold Py_ADJUST_ERANGE1; simpl.
  - rewrite Hinf. reflexivity.
  - destruct (ix =? 0) eqn:E; [| reflexivity].
    exfalso. unfold is_infinity in Hinf.
    rewrite eqb_spec, abs_spec in Hinf. rewrite eqb_spec in E.
    change (Prim2SF infinity) with (S754_infinity false) in Hinf.
    change (Prim2SF 0) with (S754_zero false) in E.
    destruct (Prim2SF ix) as [[|] | [|] | | [|] m e]; cbn in Hinf, E; discriminate.
Qed.

(** Lines 30-31 read backwards. *)
Lemma A_0_mm2_Ok (pow : float -> float * Z) (d A_0 : float) :
  A_0_mm2 pow d = Ok A_0 <->
  exists square, float_pow_2 pow (d / 2) = Ok square /\ A_0 = np_pi * square.
Proof.
  unfold A_0_mm2. cbv zeta. split.
  - intros H. apply bind_Ok in H as (square & Hsq & H).
    injection H as <-. exists square. split; [exact Hsq | reflexivity].
  - intros (square & -> & ->). reflexivity.
Qed.

Lemma A_0_mm2_Raise (pow : float -> float * Z) (d : float) (e : exn) :
  A_0_mm2 pow d = Raise e <-> float_pow_2 pow (d / 2) = Raise e.
Proof.
  unfold A_0_mm2. cbv zeta.
  destruct (float_pow_2 pow (d / 2)) as [square | e']; simpl; split; intros H;
    congruence.
Qed.

Lemma slice_to_firstn {A : Type} (a : list A) (k : nat) :
  slice_to a (Z.of_nat k) = firstn k a.
Proof.
  unfold slice_to.
  destruct (Z.ltb_spec (Z.of_nat k) 0) as [Hneg | _]; [lia |].
  rewrite Nat2Z.id. reflexivity.
Qed.

Section Stages.

Variable pow : float -> float * Z.
Variable linregress : list float -> list float -> result (float * float).

(** A successful computation, stage by stage. *)
Lemma calculate_stages (data : DataFrame) (d g : float) (r : Properties) :
  calculate_mechanical_properties pow linregress data d g = Ok r ->
  exists A_0 yi stress_y strain_y uts max_displacement,
    A_0_mm2 pow d = Ok A_0 /\
    detect_yield linregress data A_0 g = Ok yi /\
    getitem (stress_MPa data A_0) yi = Ok stress_y /\
    getitem (strain data g) yi = Ok strain_y /\
    np_max (stress_MPa data A_0) = Ok uts /\
    np_max (Displacement_mm data) = Ok max_displacement /\
    r = {| area_mm2 := A_0;
           youngs_modulus_MPa := stress_y / strain_y;
           yield_stress_MPa := stress_y;
           uts_MPa := uts;
           failure_strain_percent := max_displacement / g * 100;
           load_displacement_data :=
             {| LoadDisplacement.displacement := Displacement_mm data;
                LoadDisplacement.load := Load_kN data |};
           stress_strain_data :=
             {| StressStrain.strain := strain data g;
                StressStrain.stress := stress_MPa data A_0 |} |}.
Proof.
  unfold calculate_mechanical_properties. intros H. ok_inv H.
  injection H as <-.
  do 6 eexists. repeat split; eassumption.
Qed.

(** A successful detection, stage by stage. *)
Lemma detect_yield_stages (data : DataFrame) (A_0 g : float) (yi : nat) :
  detect_yield linregress data A_0 g = Ok yi ->
  exists k slope intercept,
    linear_points (length (stress_MPa data A_0)) = Ok k /\
    linregress (slice_to (strain data g) k) (slice_to (stress_MPa data A_0) k)
      = Ok (slope, intercept) /\
    yield_index (deviation (stress_MPa data A_0)
                   (predicted_stress slope intercept (strain data g))) = Ok yi.
Proof.
  unfold detect_yield, linear_fit. intros H.
  apply bind_Ok in H as ([slope intercept] & Hfit & Hyield).
  apply bind_Ok in Hfit as (k & Hk & Hfit).
  exists k, slope, intercept. repeat split; assumption.
Qed.

(** A failure of line 31 fails the computation with the same exception. *)
Lemma A_0_mm2_raise (data : DataFrame) (d g : float) (e : exn) :
  A_0_mm2 pow d = Raise e ->
  calculate_mechanical_properties pow linregress data d g = Raise e.
Proof.
  unfold calculate_mechanical_properties. intros ->. reflexivity.
Qed.

(** A failed detection fails the computation with the same exception. *)
Lemma detect_yield_raise (data : DataFrame) (d g A_0 : float) (e : exn) :
  A_0_mm2 pow d = Ok A_0 ->
  detect_yield linregress data A_0 g = Raise e ->
  calculate_mechanical_properties pow linregress data d g = Raise e.
Proof.
  unfold calculate_mechanical_properties. intros -> Hy. simpl. rewrite Hy. reflexivity.
Qed.

(** The computation returns a result as soon as the area is computed, the
    fit returns and some deviation is above the threshold. *)
Lemma calculate_returns (data : DataFrame) (d g A_0 slope intercept : float) :
  A_0_mm2 pow d = Ok A_0 ->
  linear_fit linregress (strain data g) (stress_MPa data A_0) = Ok (slope, intercept) ->
  Exists (fun x => exceeds x = true)
         (deviation (stress_MPa data A_0)
            (predicted_stress slope intercept (strain data g))) ->
  exists r, calculate_mechanical_properties pow linregress data d g = Ok r.
Proof.
  intros HA Hfit Hdev.
  set (dev := deviation (stress_MPa data A_0)
                (predicted_stress slope intercept (strain data g))) in *.
  destruct (yield_index_some dev Hdev) as (yi & Hyi).
  assert (Hlen : length dev = length data).
  { unfold dev, deviation, predicted_stress.
    rewrite map2_length; [apply stress_MPa_length |].
    rewrite length_map, stress_MPa_length, strain_length. reflexivity. }
  assert (Hlt : (yi < length data)%nat).
  { apply yield_index_first in Hyi as [(x & Hx & _) _].
    rewrite <- Hlen. apply (getitem_lt _ _ _ Hx). }
  destruct (getitem_total (stress_MPa data A_0) yi) as (sy & Hsy);
    [rewrite stress_MPa_length; exact Hlt |].
  destruct (getitem_total (strain data g) yi) as (ey & Hey);
    [rewrite strain_length; exact Hlt |].
  destruct (np_max_total (stress_MPa data A_0)) as (uts & Huts).
  { intros E. apply (f_equal (@length float)) in E.
    rewrite stress_MPa_length in E. simpl in E. lia. }
  destruct (np_max_total (Displacement_mm data)) as (dmax & Hdmax).
  { intros E. apply (f_equal (@length float)) in E.
    unfold Displacement_mm in E. rewrite length_map in E. simpl in E. lia. }
  unfold calculate_mechanical_properties, detect_yield.
  rewrite HA. simpl. rewrite Hfit. simpl. fold dev. rewrite Hyi. simpl.
  rewrite Hsy, Hey. simpl. rewrite Huts, Hdmax. simpl.
  eexists; reflexivity.
Qed.

(** ** Short tables *)

(** Lines 36-37 on a table of fewer than [2 ^ 52] rows: the fit is over
    the first [n / 10] samples. *)
Lemma linear_fit_tenth (data : DataFrame) (A_0 g : float) :
  (Z.of_nat (length data) < 2 ^ 52)%Z ->
  linear_fit linregress (strain data g) (stress_MPa data A_0)
  = linregress (firstn (length data / 10) (strain data g))
               (firstn (length data / 10) (stress_MPa data A_0)).
Proof.
  intros Hn. unfold linear_fit.
  rewrite stress_MPa_length, (linear_points_tenth _ Hn). simpl.
  change 10%Z with (Z.of_nat 10). rewrite <- Nat2Z.inj_div.
  rewrite !slice_to_firstn. reflexivity.
Qed.

(** A fit that raises fails the computation with its exception. *)
Lemma linear_fit_raise (data : DataFrame) (d g A_0 : float) (e : exn) :
  A_0_mm2 pow d = Ok A_0 ->
  linear_fit linregress (strain data g) (stress_MPa data A_0) = Raise e ->
  calculate_mechanical_properties pow linregress data d g = Raise e.
Proof.
  intros HA H. apply (detect_yield_raise _ _ _ A_0 _ HA).
  unfold detect_yield. rewrite H. reflexivity.
Qed.

(** A fit that returns NaN for its slope or for its intercept fails the
    computation at the yield lookup. *)
Lemma linear_fit_nan (data : DataFrame) (d g A_0 slope intercept : float) :
  A_0_mm2 pow d = Ok A_0 ->
  linear_fit linregress (strain data g) (stress_MPa data A_0) = Ok (slope, intercept) ->
  (is_nan slope || is_nan intercept)%bool = true ->
  calculate_mechanical_properties pow linregress data d g = Raise IndexError.
Proof.
  intros HA Hfit Hnan. apply (detect_yield_raise _ _ _ A_0 _ HA).
  unfold detect_yield. rewrite Hfit. simpl.
  apply yield_index_none.
  eapply Forall_impl; [| apply (NaN.line_nan _ _ _ _ Hnan)].
  intros x Hx. apply NaN.not_exceeding, Hx.
Qed.

(** A fit that returns on a table without rows fails the computation at
    the yield lookup as well: there is no deviation to look at. *)
Lemma linear_fit_empty (d g A_0 : float) (line : float * float) :
  A_0_mm2 pow d = Ok A_0 ->
  linregress [] [] = Ok line ->
  calculate_mechanical_properties pow linregress [] d g = Raise IndexError.
Proof.
  intros HA Hfit. apply (detect_yield_raise _ _ _ A_0 _ HA).
  unfold detect_yield, linear_fit.
  change (stress_MPa [] A_0) with (@nil float).
  change (strain [] g) with (@nil float).
  change (linear_points (length (@nil float))) with (@Ok Z 0%Z).
  simpl. change (slice_to (@nil float) 0) with (@nil float).
  rewrite Hfit. destruct line as [slope intercept]. reflexivity.
Qed.

End Stages.

(** * The claims of the specification *)

(** C1. On every table on which the computation succeeds, the yield index
    is the first index, scanning from index 0 upward, at which
    [deviation[i] > 0.05], where
    [deviation[i] = |stress[i] - (slope*strain[i] + intercept)| / (stress[i] + 1e-6)]
    and [slope], [intercept] come from the linear fit over the elastic
    prefix, the first [int(n * 0.1)] samples.  The stresses are those of
    the area returned, which line 31 computed. *)
Theorem C1_yield_index_is_first_exceeding
    (pow : float -> float * Z)
    (linregress : list float -> list float -> result (float * float))
    (data : DataFrame) (d g : float) (r : Properties) :
  calculate_mechanical_properties pow linregress data d g = Ok r ->
  exists k slope intercept yi stress_y strain_y,
    A_0_mm2 pow d = Ok (area_mm2 r) /\
    linear_points (length data) = Ok k /\
    linregress (slice_to (strain data g) k) (slice_to (stress_MPa data (area_mm2 r)) k)
      = Ok (slope, intercept) /\
    detect_yield linregress data (area_mm2 r) g = Ok yi /\
    getitem (stress_MPa data (area_mm2 r)) yi = Ok stress_y /\
    getitem (strain data g) yi = Ok strain_y /\
    yield_stress_MPa r = stress_y /\
    (deviation_threshold
       <? abs (stress_y - (slope * strain_y + intercept)) / (stress_y + epsilon)) = true /\
    forall j s e,
      (j < yi)%nat ->
      getitem (stress_MPa data (area_mm2 r)) j = Ok s ->
      getitem (strain data g) j = Ok e ->
      (deviation_threshold <? abs (s - (slope * e + intercept)) / (s + epsilon)) = false.
Proof.
  intros H.
  destruct (calculate_stages _ _ _ _ _ _ H)
    as (A & yi & stress_y & strain_y & uts & dmax & HA & Hyi & Hs & He & _ & _ & ->).
  cbn [area_mm2 yield_stress_MPa].
  destruct (detect_yield_stages _ _ _ _ _ Hyi) as (k & slope & intercept & Hk & Hfit & Hy).
  rewrite stress_MPa_length in Hk.
  apply yield_index_first in Hy as [(x & Hx & Hex) Hbefore].
  exists k, slope, intercept, yi, stress_y, strain_y.
  repeat (split; [assumption || reflexivity |]).
  split.
  - apply getitem_map2 in Hx as (s & p & Hs' & Hp & ->).
    apply getitem_map in Hp as (e & He' & ->).
    assert (s = stress_y) by congruence. assert (e = strain_y) by congruence.
    subst. exact Hex.
  - intros j s e Hj Hsj Hej.
    apply (Hbefore j _ Hj).
    apply getitem_map2. exists s, (slope * e + intercept).
    repeat split; [exact Hsj |].
    apply getitem_map. exists e; split; [exact Hej | reflexivity].
Qed.

(** C1 on the table [bilinear]: the fit over the first two samples, the
    yield at index 10. *)
Lemma C1_witness :
  exists r,
    calculate_mechanical_properties libm_pow scipy_linregress bilinear 6 32 = Ok r /\
    exists k slope intercept yi stress_y strain_y,
      A_0_mm2 libm_pow 6 = Ok (area_mm2 r) /\
      linear_points (length bilinear) = Ok k /\
      scipy_linregress (slice_to (strain bilinear 32) k)
                       (slice_to (stress_MPa bilinear (area_mm2 r)) k)
        = Ok (slope, intercept) /\
      detect_yield scipy_linregress bilinear (area_mm2 r) 32 = Ok yi /\
      getitem (stress_MPa bilinear (area_mm2 r)) yi = Ok stress_y /\
      getitem (strain bilinear 32) yi = Ok strain_y /\
      yield_stress_MPa r = stress_y /\
      (deviation_threshold
         <? abs (stress_y - (slope * strain_y + intercept)) / (stress_y + epsilon)) = true /\
      forall j s e,
        (j < yi)%nat ->
        getitem (stress_MPa bilinear (area_mm2 r)) j = Ok s ->
        getitem (strain bilinear 32) j = Ok e ->
        (deviation_threshold <? abs (s - (slope * e + intercept)) / (s + epsilon)) = false.
Proof.
  eexists. split; [vm_compute; reflexivity |].
  apply (C1_yield_index_is_first_exceeding libm_pow scipy_linregress bilinear 6 32).
  vm_compute. reflexivity.
Defined.

(** C2. Whenever the computation succeeds with yield index [yi], the
    Young's modulus returned is [stress[yi] / strain[yi]], the secant
    modulus at the yield point; it is not the slope of the fit: on the
    table [bilinear] the two differ. *)
Theorem C2_youngs_modulus_is_secant :
  (forall (pow : float -> float * Z)
          (linregress : list float -> list float -> result (float * float))
          (data : DataFrame) (d g : float) (r : Properties),
      calculate_mechanical_properties pow linregress data d g = Ok r ->
      exists yi stress_y strain_y,
        A_0_mm2 pow d = Ok (area_mm2 r) /\
        detect_yield linregress data (area_mm2 r) g = Ok yi /\
        getitem (stress_MPa data (area_mm2 r)) yi = Ok stress_y /\
        getitem (strain data g) yi = Ok strain_y /\
        youngs_modulus_MPa r = stress_y / strain_y) /\
  (exists r slope intercept,
      calculate_mechanical_properties libm_pow scipy_linregress bilinear 6 32 = Ok r /\
      linear_fit scipy_linregress (strain bilinear 32) (stress_MPa bilinear (area_mm2 r))
        = Ok (slope, intercept) /\
      (youngs_modulus_MPa r =? slope) = false).
Proof.
  split.
  - intros pow linregress data d g r H.
    destruct (calculate_stages _ _ _ _ _ _ H)
      as (A & yi & stress_y & strain_y & uts & dmax & HA & Hyi & Hs & He & _ & _ & ->).
    exists yi, stress_y, strain_y. repeat split; assumption.
  - do 3 eexists.
    split; [vm_compute; reflexivity |].
    split; vm_compute; reflexivity.
Qed.

(** C2 on the table [bilinear]. *)
Lemma C2_witness :
  exists r,
    calculate_mechanical_properties libm_pow scipy_linregress bilinear 6 32 = Ok r /\
    exists yi stress_y strain_y,
      A_0_mm2 libm_pow 6 = Ok (area_mm2 r) /\
      detect_yield scipy_linregress bilinear (area_mm2 r) 32 = Ok yi /\
      getitem (stress_MPa bilinear (area_mm2 r)) yi = Ok stress_y /\
      getitem (strain bilinear 32) yi = Ok strain_y /\
      youngs_modulus_MPa r = stress_y / strain_y.
Proof.
  eexists. split; [vm_compute; reflexivity |].
  apply (proj1 C2_youngs_modulus_is_secant libm_pow scipy_linregress bilinear 6 32).
  vm_compute. reflexivity.
Defined.

(** C3, as the code has it.  On every table of [n] rows, [n] below
    [2 ^ 52], the elastic prefix has exactly [int(n * 0.1) = floor(n / 10)]
    points.  No test on that number is made and no error is reserved for
    it: [linregress] is called on the prefix whatever its length, none for
    [n < 10], one point for [10 <= n < 20], two points for [n = 20].  Once
    line 31 has computed the area, what the computation does is then up to
    [linregress]: if it raises, the computation fails with its exception;
    if it returns NaN for its slope or for its intercept, no deviation is
    above the threshold and the computation fails with the [IndexError] of
    the yield lookup. *)
Theorem C3_elastic_prefix_and_short_tables
    (pow : float -> float * Z)
    (linregress : list float -> list float -> result (float * float))
    (data : DataFrame) (d g A_0 : float) :
  (Z.of_nat (length data) < 2 ^ 52)%Z ->
  A_0_mm2 pow d = Ok A_0 ->
  linear_points (length data) = Ok (Z.of_nat (length data / 10)) /\
  linear_fit linregress (strain data g) (stress_MPa data A_0)
  = linregress (firstn (length data / 10) (strain data g))
               (firstn (length data / 10) (stress_MPa data A_0)) /\
  length (firstn (length data / 10) (strain data g)) = (length data / 10)%nat /\
  length (firstn (length data / 10) (stress_MPa data A_0)) = (length data / 10)%nat /\
  (forall e,
      linregress (firstn (length data / 10) (strain data g))
                 (firstn (length data / 10) (stress_MPa data A_0)) = Raise e ->
      calculate_mechanical_properties pow linregress data d g = Raise e) /\
  (forall slope intercept,
      linregress (firstn (length data / 10) (strain data g))
                 (firstn (length data / 10) (stress_MPa data A_0)) = Ok (slope, intercept) ->
      (is_nan slope || is_nan intercept)%bool = true ->
      calculate_mechanical_properties pow linregress data d g = Raise IndexError) /\
  ((length data < 10)%nat ->
   (length data / 10 = 0)%nat /\
   linear_fit linregress (strain data g) (stress_MPa data A_0) = linregress [] []) /\
  ((10 <= length data < 20)%nat ->
   (length data / 10 = 1)%nat /\
   linear_fit linregress (strain data g) (stress_MPa data A_0)
   = linregress (firstn 1 (strain data g)) (firstn 1 (stress_MPa data A_0))) /\
  (length data = 20%nat ->
   (length data / 10 = 2)%nat /\
   linear_fit linregress (strain data g) (stress_MPa data A_0)
   = linregress (firstn 2 (strain data g)) (firstn 2 (stress_MPa data A_0))).
Proof.
  intros Hn HA.
  pose proof (linear_fit_tenth linregress data A_0 g Hn) as Hfit.
  assert (Hdiv : (length data / 10 <= length data)%nat)
    by (apply Nat.Div0.div_le_upper_bound; lia).
  split.
  { rewrite (linear_points_tenth _ Hn), Nat2Z.inj_div. reflexivity. }
  split; [exact Hfit |].
  split; [rewrite length_firstn, strain_length; lia |].
  split; [rewrite length_firstn, stress_MPa_length; lia |].
  split.
  { intros e He. apply (linear_fit_raise pow linregress data d g A_0 e HA).
    rewrite Hfit. exact He. }
  split.
  { intros slope intercept Hlr Hnan.
    apply (linear_fit_nan pow linregress data d g A_0 slope intercept HA); [| exact Hnan].
    rewrite Hfit. exact Hlr. }
  split; [| split].
  - intros Hlt. rewrite Hfit, (Nat.div_small _ 10 Hlt). split; reflexivity.
  - intros [Hge Hlt].
    assert (Hk : (length data / 10 = 1)%nat).
    { symmetry. apply (Nat.div_unique _ 10 1 (length data - 10)); lia. }
    rewrite Hfit, Hk. split; reflexivity.
  - intros H20. rewrite Hfit, H20. split; reflexivity.
Qed.

(** C3 on the first nineteen rows of [bilinear], where the fit on one
    point answers NaN, and on its first nine rows, where the fit on no
    point does: the computation fails at the yield lookup. *)
Lemma C3_witness :
  exists A_0,
    (Z.of_nat (length (firstn 19 bilinear)) < 2 ^ 52)%Z /\
    A_0_mm2 libm_pow 6 = Ok A_0 /\
    linear_points 19 = Ok 1%Z /\
    scipy_linregress (firstn 1 (strain (firstn 19 bilinear) 32))
                     (firstn 1 (stress_MPa (firstn 19 bilinear) A_0)) = Ok (nan, nan) /\
    calculate_mechanical_properties libm_pow scipy_linregress (firstn 19 bilinear) 6 32
    = Raise IndexError /\
    linear_points 9 = Ok 0%Z /\
    linear_fit scipy_linregress (strain (firstn 9 bilinear) 32)
      (stress_MPa (firstn 9 bilinear) A_0) = scipy_linregress [] [] /\
    calculate_mechanical_properties libm_pow scipy_linregress (firstn 9 bilinear) 6 32
    = Raise IndexError.
Proof.
  eexists.
  assert (Hn : (Z.of_nat (length (firstn 19 bilinear)) < 2 ^ 52)%Z)
    by reflexivity.
  assert (Hn' : (Z.of_nat (length (firstn 9 bilinear)) < 2 ^ 52)%Z)
    by reflexivity.
  assert (HA : A_0_mm2 libm_pow 6 = Ok _) by (vm_compute; reflexivity).
  destruct (C3_elastic_prefix_and_short_tables
              libm_pow scipy_linregress (firstn 19 bilinear) 6 32 _ Hn HA)
    as (Hk & _ & _ & _ & _ & Hnan & _).
  destruct (C3_elastic_prefix_and_short_tables
              libm_pow scipy_linregress (firstn 9 bilinear) 6 32 _ Hn' HA)
    as (Hk' & _ & _ & _ & _ & Hnan' & Hshort & _).
  split; [exact Hn |]. split; [exact HA |]. split; [exact Hk |].
  split; [vm_compute; reflexivity |].
  split; [apply (Hnan nan nan); [vm_compute; reflexivity | reflexivity] |].
  split; [exact Hk' |].
  split; [apply Hshort; simpl; lia |].
  apply (Hnan' nan nan); [vm_compute; reflexivity | reflexivity].
Defined.

(** The claim C3 as the specification words it, read on the code: the
    error of too short a prefix is the failure of the linear fit, the stage
    that sees the prefix.  This does not hold on the first nineteen rows
    of [bilinear]: the fit returns there, and the computation fails later,
    at the yield lookup. *)
Lemma C3_counterexample :
  ~ (forall (data : DataFrame) (d g : float),
        (length data < 20)%nat ->
        fails_in_fit libm_pow scipy_linregress data d g = true).
Proof.
  intros H. specialize (H (firstn 19 bilinear) 6 32).
  assert (Hlen : (length (firstn 19 bilinear) < 20)%nat) by (simpl; lia).
  apply H in Hlen. vm_compute in Hlen. discriminate Hlen.
Qed.

(** C4, as the code has it.  When the area is computed, the fit succeeds
    and no deviation is above the threshold, [np.where] finds no index, the
    access to its first element is out of bounds, and the computation
    fails with that [IndexError]; no result is returned. *)
Theorem C4_no_yield_raises_IndexError
    (pow : float -> float * Z)
    (linregress : list float -> list float -> result (float * float))
    (data : DataFrame) (d g A_0 slope intercept : float) :
  A_0_mm2 pow d = Ok A_0 ->
  linear_fit linregress (strain data g) (stress_MPa data A_0) = Ok (slope, intercept) ->
  Forall (fun x => exceeds x = false)
         (deviation (stress_MPa data A_0)
            (predicted_stress slope intercept (strain data g))) ->
  np_where (map exceeds
              (deviation (stress_MPa data A_0)
                 (predicted_stress slope intercept (strain data g)))) = [] /\
  detect_yield linregress data A_0 g = Raise IndexError /\
  calculate_mechanical_properties pow linregress data d g = Raise IndexError.
Proof.
  intros HA Hfit Hdev.
  assert (Hy : detect_yield linregress data A_0 g = Raise IndexError).
  { unfold detect_yield. rewrite Hfit. simpl. apply yield_index_none, Hdev. }
  split; [| split].
  - apply np_where_from_none, Forall_map, Hdev.
  - exact Hy.
  - apply (detect_yield_raise pow linregress data d g A_0 _ HA Hy).
Qed.

(** C4 on the table [linear], twenty samples on one line. *)
Lemma C4_witness :
  exists A_0 slope intercept,
    A_0_mm2 libm_pow 6 = Ok A_0 /\
    linear_fit scipy_linregress (strain linear 32) (stress_MPa linear A_0)
      = Ok (slope, intercept) /\
    calculate_mechanical_properties libm_pow scipy_linregress linear 6 32
    = Raise IndexError.
Proof.
  do 3 eexists.
  split; [vm_compute; reflexivity |].
  split; [vm_compute; reflexivity |].
  refine (proj2 (proj2 (C4_no_yield_raises_IndexError
                          libm_pow scipy_linregress linear 6 32 _ _ _ _ _ _))).
  - vm_compute. reflexivity.
  - vm_compute. reflexivity.
  - vm_compute. repeat constructor.
Defined.

(** The claim C4 as the specification words it, read on the code: the
    failure is not the [IndexError] of an access out of bounds.  This does
    not hold on [linear]: that exception is the one raised there. *)
Lemma C4_counterexample :
  ~ (forall (data : DataFrame) (d g A_0 slope intercept : float),
        A_0_mm2 libm_pow d = Ok A_0 ->
        linear_fit scipy_linregress (strain data g) (stress_MPa data A_0)
          = Ok (slope, intercept) ->
        Forall (fun x => exceeds x = false)
               (deviation (stress_MPa data A_0)
                  (predicted_stress slope intercept (strain data g))) ->
        exists e,
          calculate_mechanical_properties libm_pow scipy_linregress data d g = Raise e /\
          e <> IndexError).
Proof.
  intros H.
  destruct (H linear 6 32 _ _ _ ltac:(vm_compute; reflexivity)
              ltac:(vm_compute; reflexivity)) as (e & He & Hne).
  - vm_compute. repeat constructor.
  - vm_compute in He. congruence.
Qed.

(** C5, as the code has it.  The computation checks nothing and has no
    error of its own for an input.  On a table without rows it always
    fails, at no check: with the exception of line 31 when the area is not
    computed, else with the exception [linregress] raises on the empty
    prefix, else, when [linregress] returns, with the [IndexError] of the
    yield lookup.  It does not fail whenever the diameter or the gauge
    length is not positive: the table [bilinear] gives a result with a
    diameter of -6 mm, and with a gauge length of -32 mm.  That the
    diameter, the gauge length and the displacement rate are positive
    numbers is checked by the caller, [update_output], which answers with a
    message and does not call the computation; when its checks pass it
    calls the computation, then the rendering, on the numbers given. *)
Theorem C5_validation_is_in_the_caller
    (pow : float -> float * Z)
    (linregress : list float -> list float -> result (float * float))
    (process_csv_data : string -> string -> DataFrame + string)
    (generate_plots : LoadDisplacement.t -> StressStrain.t -> result string) :
  (forall d g,
      match A_0_mm2 pow d with
      | Raise e => calculate_mechanical_properties pow linregress [] d g = Raise e
      | Ok _ =>
          match linregress [] [] with
          | Raise e => calculate_mechanical_properties pow linregress [] d g = Raise e
          | Ok _ => calculate_mechanical_properties pow linregress [] d g = Raise IndexError
          end
      end) /\
  ((exists r,
       calculate_mechanical_properties libm_pow scipy_linregress bilinear (-6) 32 = Ok r) /\
   (exists r,
       calculate_mechanical_properties libm_pow scipy_linregress bilinear 6 (-32) = Ok r)) /\
  (forall n_clicks uploaded filename diameter gauge_length displacement_rate,
      n_clicks <> 0%Z ->
      not_positive diameter \/ not_positive gauge_length
      \/ not_positive displacement_rate ->
      update_output pow linregress process_csv_data generate_plots
        n_clicks (Some uploaded) filename diameter gauge_length displacement_rate
      = Ok (Message "Inputs must be positive numbers.")) /\
  (forall n_clicks uploaded filename diameter gauge_length displacement_rate data,
      n_clicks <> 0%Z ->
      (0 <? diameter) = true -> (0 <? gauge_length) = true ->
      (0 <? displacement_rate) = true ->
      process_csv_data uploaded filename = inl data ->
      update_output pow linregress process_csv_data generate_plots
        n_clicks (Some uploaded) filename
        (Number diameter) (Number gauge_length) (Number displacement_rate)
      = (results <- calculate_mechanical_properties pow linregress data
                      diameter gauge_length ;;
         plot_base64 <- generate_plots (load_displacement_data results)
                          (stress_strain_data results) ;;
         Ok (Report results plot_base64))).
Proof.
  split; [| split; [| split]].
  - intros d g.
    destruct (A_0_mm2 pow d) as [A | e] eqn:HA.
    + destruct (linregress [] []) as [line | e] eqn:Hfit.
      * apply (linear_fit_empty pow linregress d g A line HA Hfit).
      * apply (linear_fit_raise pow linregress [] d g A e HA).
        unfold linear_fit. simpl.
        change (linear_points 0) with (@Ok Z 0%Z). simpl. exact Hfit.
    + apply A_0_mm2_raise, HA.
  - split; eexists; vm_compute; reflexivity.
  - intros n_clicks uploaded filename diameter gauge_length rate Hn Hbad.
    unfold update_output.
    destruct (Z.eqb_spec n_clicks 0) as [E | _]; [contradiction |].
    assert (Hfield : forall v, not_positive v -> positive_number v = false).
    { intros [| x] Hv; [reflexivity | exact Hv]. }
    simpl forallb.
    destruct Hbad as [Hbad | [Hbad | Hbad]]; rewrite (Hfield _ Hbad); simpl;
      rewrite ?andb_false_r; reflexivity.
  - intros n_clicks uploaded filename diameter gauge_length rate data Hn Hd Hg Hr Hcsv.
    unfold update_output.
    destruct (Z.eqb_spec n_clicks 0) as [E | _]; [contradiction |].
    simpl. rewrite Hd, Hg, Hr, Hcsv. reflexivity.
Qed.

(** C5 on a form with a diameter of -6 mm, and on one with a diameter of
    zero: the caller answers with the message, whatever the upload holds;
    and on the table without rows. *)
Lemma C5_witness :
  update_output libm_pow scipy_linregress (fun _ _ => inl bilinear)
    (fun _ _ => Ok "png"%string) 1 (Some "upload"%string)
    "test.csv"%string (Number (-6)) (Number 32) (Number 2)
  = Ok (Message "Inputs must be positive numbers.") /\
  update_output libm_pow scipy_linregress (fun _ _ => inl bilinear)
    (fun _ _ => Ok "png"%string) 1 (Some "upload"%string)
    "test.csv"%string (Number 0) (Number 32) (Number 2)
  = Ok (Message "Inputs must be positive numbers.") /\
  calculate_mechanical_properties libm_pow scipy_linregress [] 6 32 = Raise IndexError.
Proof.
  pose proof (C5_validation_is_in_the_caller libm_pow scipy_linregress
                (fun _ _ => inl bilinear) (fun _ _ => Ok "png"%string))
    as (Hempty & _ & Hcheck & _).
  split; [| split].
  - apply Hcheck; [discriminate | left; reflexivity].
  - apply Hcheck; [discriminate | left; reflexivity].
  - exact (Hempty 6 32).
Defined.

(** The claim C5 as the specification words it, read on the code: the
    computation fails whenever the table is empty or the diameter or the
    gauge length is not above zero.  This does not hold on [bilinear] with
    a diameter of -6 mm: the computation returns a result. *)
Lemma C5_counterexample :
  ~ (forall (data : DataFrame) (d g : float),
        data = [] \/ (d <=? 0) = true \/ (g <=? 0) = true ->
        succeeds (calculate_mechanical_properties libm_pow scipy_linregress data d g)
        = false).
Proof.
  intros H. specialize (H bilinear (-6) 32).
  assert (Hbad : bilinear = [] \/ (-6 <=? 0) = true \/ (32 <=? 0) = true)
    by (right; left; reflexivity).
  apply H in Hbad. vm_compute in Hbad. discriminate Hbad.
Qed.

(** C6, as the code has it.  The area is [np.pi * (diameter/2)**2], the
    power being Python's float power: where it calls the platform's [pow]
    and that reports no error, the value [pow] returns for the magnitude
    of the radius; where [pow] reports the square out of range, an
    [OverflowError], and then no curve and no result is produced, whatever
    the table.  When the area [A_0] is computed, the curve of every table
    has [stress[i] = (load_kN[i] * 1000) / A_0] and
    [strain[i] = displacement[i] / gauge_length] at every index [i], and
    the area returned is [A_0], whatever the loads, the displacements and
    the gauge length are. *)
Theorem C6_curve_builder
    (pow : float -> float * Z)
    (linregress : list float -> list float -> result (float * float))
    (data : DataFrame) (d g : float) :
  (forall A_0,
      A_0_mm2 pow d = Ok A_0 ->
      (exists square, float_pow_2 pow (d / 2) = Ok square /\ A_0 = np_pi * square) /\
      (forall i l x,
          getitem data i = Ok (l, x) ->
          getitem (stress_MPa data A_0) i = Ok (l * 1000 / A_0) /\
          getitem (strain data g) i = Ok (x / g)) /\
      (forall r,
          calculate_mechanical_properties pow linregress data d g = Ok r ->
          area_mm2 r = A_0 /\
          StressStrain.stress (stress_strain_data r) = stress_MPa data A_0 /\
          StressStrain.strain (stress_strain_data r) = strain data g) /\
      (forall data' g' r',
          calculate_mechanical_properties pow linregress data' d g' = Ok r' ->
          area_mm2 r' = A_0)) /\
  (forall e,
      A_0_mm2 pow d = Raise e ->
      (e = OverflowError \/ e = ValueError) /\
      forall data' g',
        calculate_mechanical_properties pow linregress data' d g' = Raise e) /\
  (is_nan (d / 2) = false -> is_infinity (d / 2) = false -> (d / 2 =? 0) = false ->
   ((if d / 2 <? 0 then - (d / 2) else d / 2) =? 1) = false ->
   forall ix errno,
     pow (if d / 2 <? 0 then - (d / 2) else d / 2) = (ix, errno) ->
     (Py_ADJUST_ERANGE1 ix errno = 0%Z -> A_0_mm2 pow d = Ok (np_pi * ix)) /\
     (Py_ADJUST_ERANGE1 ix errno = ERANGE -> A_0_mm2 pow d = Raise OverflowError) /\
     (is_infinity ix = true -> errno = 0%Z \/ errno = ERANGE ->
      A_0_mm2 pow d = Raise OverflowError)).
Proof.
  split; [| split].
  - intros A HA. split; [apply A_0_mm2_Ok, HA |].
    split; [| split].
    + intros i l x H. split.
      * apply (stress_MPa_getitem _ _ _ _ _ H).
      * apply (strain_getitem _ _ _ _ _ H).
    + intros r H.
      destruct (calculate_stages _ _ _ _ _ _ H)
        as (A' & yi & stress_y & strain_y & uts & dmax & HA' & _ & _ & _ & _ & _ & ->).
      assert (A' = A) by congruence. subst A'. repeat split.
    + intros data' g' r' H'.
      destruct (calculate_stages _ _ _ _ _ _ H')
        as (A' & yi & stress_y & strain_y & uts & dmax & HA' & _ & _ & _ & _ & _ & ->).
      cbn [area_mm2]. congruence.
  - intros e He. split.
    + apply (float_pow_2_raise pow (d / 2)), A_0_mm2_Raise, He.
    + intros data' g'. apply A_0_mm2_raise, He.
  - intros Hnan Hinf Hzero Hone ix errno Hpow.
    pose proof (float_pow_2_call pow _ ix errno Hnan Hinf Hzero Hone Hpow) as Hcall.
    assert (Hover : Py_ADJUST_ERANGE1 ix errno = ERANGE ->
                    A_0_mm2 pow d = Raise OverflowError).
    { intros E. apply A_0_mm2_Raise. rewrite Hcall, E. reflexivity. }
    split; [| split].
    + intros E. apply A_0_mm2_Ok. exists ix. split; [| reflexivity].
      rewrite Hcall, E. reflexivity.
    + exact Hover.
    + intros Hix Herrno. apply Hover, adjust_infinite; assumption.
Qed.

(** C6 on the eleventh row of [bilinear], on the areas of [bilinear] and
    [shuffled] with a diameter of 6 mm, and on a diameter of [1e200] mm,
    whose square is out of range. *)
Lemma C6_witness :
  exists A_0,
    A_0_mm2 libm_pow 6 = Ok A_0 /\
    A_0 = np_pi * 9 /\
    (getitem (stress_MPa bilinear A_0) 10 = Ok (10.25 * 1000 / A_0) /\
     getitem (strain bilinear 32) 10 = Ok (11 / 32)) /\
    (exists r r',
        calculate_mechanical_properties libm_pow scipy_linregress bilinear 6 32 = Ok r /\
        calculate_mechanical_properties libm_pow scipy_linregress shuffled 6 32 = Ok r' /\
        area_mm2 r = A_0 /\
        area_mm2 r' = A_0) /\
    calculate_mechanical_properties libm_pow scipy_linregress bilinear
      0x1.4e718d7d7625ap+664 32 = Raise OverflowError.
Proof.
  pose proof (C6_curve_builder libm_pow scipy_linregress bilinear 6 32)
    as (Hcurve & _ & _).
  pose proof (C6_curve_builder libm_pow scipy_linregress bilinear
                0x1.4e718d7d7625ap+664 32) as (_ & Hraise & _).
  eexists.
  assert (HA : A_0_mm2 libm_pow 6 = Ok _) by (vm_compute; reflexivity).
  destruct (Hcurve _ HA) as (_ & Hrow & Harea & Hsame).
  split; [exact HA |].
  split; [vm_compute; reflexivity |].
  split; [apply (Hrow 10%nat 10.25 11); reflexivity |].
  split.
  - do 2 eexists.
    split; [vm_compute; reflexivity |].
    split; [vm_compute; reflexivity |].
    split.
    + apply Harea. vm_compute. reflexivity.
    + apply (Hsame shuffled 32). vm_compute. reflexivity.
  - apply (Hraise OverflowError). vm_compute. reflexivity.
Defined.

(** The claim C6 as the specification words it, read on the code: on
    every valid input, a table with rows, a diameter and a gauge length
    above zero, the curve builder produces the area.  This does not hold
    for the diameter [1e200] mm: the square of the radius is out of range
    and line 31 raises [OverflowError]. *)
Lemma C6_counterexample :
  ~ (forall (data : DataFrame) (d g : float),
        data <> [] -> (0 <? d) = true -> (0 <? g) = true ->
        exists A_0, A_0_mm2 libm_pow d = Ok A_0).
Proof.
  intros H.
  destruct (H bilinear 0x1.4e718d7d7625ap+664 32) as (A & HA);
    [discriminate | reflexivity | reflexivity |].
  vm_compute in HA. discriminate HA.
Qed.

(** C7. Whenever the computation succeeds, the failure strain returned is
    [(max(displacement) / gauge_length) * 100], the maximum being taken over
    the whole displacement column: it is one of the displacements, it is
    NaN exactly when one of them is, and otherwise none is above it,
    wherever in the column it stands. *)
Theorem C7_failure_strain_uses_max_displacement
    (pow : float -> float * Z)
    (linregress : list float -> list float -> result (float * float))
    (data : DataFrame) (d g : float) (r : Properties) :
  calculate_mechanical_properties pow linregress data d g = Ok r ->
  exists max_displacement,
    np_max (Displacement_mm data) = Ok max_displacement /\
    failure_strain_percent r = max_displacement / g * 100 /\
    In max_displacement (Displacement_mm data) /\
    is_nan max_displacement = existsb is_nan (Displacement_mm data) /\
    (existsb is_nan (Displacement_mm data) = false ->
     forall i x, getitem (Displacement_mm data) i = Ok x -> (x <=? max_displacement) = true).
Proof.
  intros H.
  destruct (calculate_stages _ _ _ _ _ _ H)
    as (A & yi & stress_y & strain_y & uts & dmax & _ & _ & _ & _ & _ & Hmax & ->).
  destruct (np_max_spec _ _ Hmax) as (Hin & Hnan & Hup).
  exists dmax. repeat (split; [assumption || reflexivity |]).
  intros Hfree i x Hx. apply Hup; [exact Hfree |].
  apply getitem_nth_error in Hx. apply (nth_error_In _ _ Hx).
Qed.

(** C7 on the table [shuffled]: the largest displacement, 20 mm, stands in
    row 14 of 20, the largest load in row 12, and the failure strain is
    [20 / 32 * 100]. *)
Lemma C7_witness :
  exists r,
    calculate_mechanical_properties libm_pow scipy_linregress shuffled 6 32 = Ok r /\
    getitem (Displacement_mm shuffled) 14 = Ok 20 /\
    getitem (Displacement_mm shuffled) 19 = Ok 15 /\
    getitem (stress_MPa shuffled (area_mm2 r)) 12 = Ok (uts_MPa r) /\
    exists max_displacement,
      np_max (Displacement_mm shuffled) = Ok max_displacement /\
      max_displacement = 20 /\
      failure_strain_percent r = max_displacement / 32 * 100 /\
      (forall i x, getitem (Displacement_mm shuffled) i = Ok x ->
                   (x <=? max_displacement) = true).
Proof.
  eexists. split; [vm_compute; reflexivity |].
  split; [reflexivity |]. split; [reflexivity |]. split; [vm_compute; reflexivity |].
  destruct (C7_failure_strain_uses_max_displacement libm_pow scipy_linregress
              shuffled 6 32 _ ltac:(vm_compute; reflexivity))
    as (m & Hm & Hf & _ & _ & Hup).
  exists m. split; [exact Hm |].
  split; [vm_compute in Hm; congruence |].
  split; [exact Hf |].
  apply Hup. vm_compute. reflexivity.
Defined.

(** C8. Whenever the computation succeeds, the ultimate tensile strength
    returned is the maximum of the stress array over all its indices,
    those before the yield index included: it is one of the stresses, it
    is NaN exactly when one of them is, and otherwise no stress at any
    index is above it. *)
Theorem C8_uts_is_max_stress
    (pow : float -> float * Z)
    (linregress : list float -> list float -> result (float * float))
    (data : DataFrame) (d g : float) (r : Properties) :
  calculate_mechanical_properties pow linregress data d g = Ok r ->
  A_0_mm2 pow d = Ok (area_mm2 r) /\
  np_max (stress_MPa data (area_mm2 r)) = Ok (uts_MPa r) /\
  In (uts_MPa r) (stress_MPa data (area_mm2 r)) /\
  is_nan (uts_MPa r) = existsb is_nan (stress_MPa data (area_mm2 r)) /\
  (existsb is_nan (stress_MPa data (area_mm2 r)) = false ->
   forall i s, getitem (stress_MPa data (area_mm2 r)) i = Ok s ->
               (s <=? uts_MPa r) = true).
Proof.
  intros H.
  destruct (calculate_stages _ _ _ _ _ _ H)
    as (A & yi & stress_y & strain_y & uts & dmax & HA & _ & _ & _ & Hmax & _ & ->).
  destruct (np_max_spec _ _ Hmax) as (Hin & Hnan & Hup).
  cbn [area_mm2 uts_MPa]. repeat (split; [assumption |]).
  intros Hfree i s Hs. apply Hup; [exact Hfree |].
  apply getitem_nth_error in Hs. apply (nth_error_In _ _ Hs).
Qed.

(** C8 on the table [spiked]: the largest stress stands at index 3, before
    the yield index 10, and it is the strength returned. *)
Lemma C8_witness :
  exists r,
    calculate_mechanical_properties libm_pow scipy_linregress spiked 6 32 = Ok r /\
    detect_yield scipy_linregress spiked (area_mm2 r) 32 = Ok 10%nat /\
    getitem (stress_MPa spiked (area_mm2 r)) 3 = Ok (uts_MPa r) /\
    np_max (stress_MPa spiked (area_mm2 r)) = Ok (uts_MPa r) /\
    (forall i s, getitem (stress_MPa spiked (area_mm2 r)) i = Ok s ->
                 (s <=? uts_MPa r) = true).
Proof.
  eexists. split; [vm_compute; reflexivity |].
  split; [vm_compute; reflexivity |]. split; [vm_compute; reflexivity |].
  destruct (C8_uts_is_max_stress libm_pow scipy_linregress spiked 6 32 _
              ltac:(vm_compute; reflexivity)) as (_ & Hm & _ & _ & Hup).
  split; [exact Hm |].
  apply Hup. vm_compute. reflexivity.
Defined.

(** C9. On every table of [n] rows on which the computation succeeds,
    the curve in the result has [n] stresses and [n] strains, row [i] of
    the table giving element [i] of both. *)
Theorem C9_curve_lengths
    (pow : float -> float * Z)
    (linregress : list float -> list float -> result (float * float))
    (data : DataFrame) (d g : float) (r : Properties) :
  calculate_mechanical_properties pow linregress data d g = Ok r ->
  A_0_mm2 pow d = Ok (area_mm2 r) /\
  length (StressStrain.stress (stress_strain_data r)) = length data /\
  length (StressStrain.strain (stress_strain_data r)) = length data /\
  forall i l x,
    getitem data i = Ok (l, x) ->
    getitem (StressStrain.stress (stress_strain_data r)) i
      = Ok (l * 1000 / area_mm2 r) /\
    getitem (StressStrain.strain (stress_strain_data r)) i = Ok (x / g).
Proof.
  intros H.
  destruct (calculate_stages _ _ _ _ _ _ H)
    as (A & yi & stress_y & strain_y & uts & dmax & HA & _ & _ & _ & _ & _ & ->).
  simpl. split; [exact HA |].
  split; [apply stress_MPa_length |]. split; [apply strain_length |].
  intros i l x Hi. split.
  - apply (stress_MPa_getitem _ _ _ _ _ Hi).
  - apply (strain_getitem _ _ _ _ _ Hi).
Qed.

(** C9 on the table [bilinear], of twenty rows. *)
Lemma C9_witness :
  exists r,
    calculate_mechanical_properties libm_pow scipy_linregress bilinear 6 32 = Ok r /\
    length (StressStrain.stress (stress_strain_data r)) = 20%nat /\
    length (StressStrain.strain (stress_strain_data r)) = 20%nat.
Proof.
  eexists. split; [vm_compute; reflexivity |].
  destruct (C9_curve_lengths libm_pow scipy_linregress bilinear 6 32 _
              ltac:(vm_compute; reflexivity)) as (_ & Hs & He & _).
  split; [exact Hs | exact He].
Defined.

(** C10. The [1e-6] of the denominator guards non-negative stresses only.
    For a stress that is not negative the denominator [stress + 1e-6] is
    positive.  A negative load can give a stress of exactly [-1e-6] MPa:
    the denominator is then zero and the deviation is a quotient by zero (on
    the table [dipped] it is [inf] at index 5, which is taken for the yield
    index).  For a stress below [-1e-6] the denominator is negative; the
    deviation is then of negative sign or NaN, at most zero when it is a
    number, and never above the threshold. *)
Theorem C10_epsilon_guard_is_one_sided :
  (forall s, (0 <=? s) = true -> (0 <? s + epsilon) = true) /\
  (exists A_0,
     A_0_mm2 libm_pow 6 = Ok A_0 /\
     (tiny_negative_load <? 0) = true /\
     getitem (Load_kN dipped) 5 = Ok tiny_negative_load /\
     getitem (stress_MPa dipped A_0) 5 = Ok (- epsilon) /\
     - epsilon + epsilon = 0 /\
     (forall p, deviation_at (- epsilon) p = abs (- epsilon - p) / 0) /\
     exists slope intercept,
       linear_fit scipy_linregress (strain dipped 32) (stress_MPa dipped A_0)
         = Ok (slope, intercept) /\
       getitem (deviation (stress_MPa dipped A_0)
                  (predicted_stress slope intercept (strain dipped 32))) 5 = Ok infinity /\
       detect_yield scipy_linregress dipped A_0 32 = Ok 5%nat) /\
  (forall s p,
      (s <? - epsilon) = true ->
      (s + epsilon <? 0) = true /\
      negative_or_nan (deviation_at s p) /\
      (0 <? deviation_at s p) = false /\
      (is_nan (deviation_at s p) = true \/ (deviation_at s p <=? 0) = true) /\
      exceeds (deviation_at s p) = false).
Proof.
  split; [exact Deviation.denominator_positive | split].
  - eexists. split; [vm_compute; reflexivity |].
    split; [reflexivity |]. split; [reflexivity |].
    split; [vm_compute; reflexivity |]. split; [reflexivity |].
    split; [intros p; reflexivity |].
    do 2 eexists. split; [vm_compute; reflexivity |].
    split; vm_compute; reflexivity.
  - intros s p Hs.
    pose proof (Deviation.denominator_negative s Hs) as Hden.
    pose proof (Deviation.quotient_negative (s - p) _ Hden) as Hneg.
    destruct (Deviation.negative_not_exceeding _ Hneg) as (Hex & Hpos & Hle).
    unfold deviation_at. repeat split; assumption.
Qed.

(** C10 at a stress of [-1] MPa predicted as [0]. *)
Lemma C10_witness :
  (-1 <? - epsilon) = true /\
  (-1 + epsilon <? 0) = true /\
  (deviation_at (-1) 0 <=? 0) = true /\
  exceeds (deviation_at (-1) 0) = false.
Proof.
  split; [reflexivity |].
  destruct (proj2 (proj2 C10_epsilon_guard_is_one_sided) (-1) 0 eq_refl)
    as (Hden & _ & _ & _ & Hex).
  split; [exact Hden |]. split; [reflexivity | exact Hex].
Defined.

(** * Further properties of the code *)

(** ** Signs, zeros and NaN in binary64 *)

Module Sign.

Lemma binary_round_aux_opp (s : bool) (m e : Z) (l : location) :
  binary_round_aux prec emax (negb s) m e l
  = SFopp (binary_round_aux prec emax s m e l).
Proof.
  unfold binary_round_aux.
  destruct (shr_fexp prec emax m e l) as [mrs' e'].
  destruct (shr_fexp prec emax _ e' loc_Exact) as [mrs'' e''].
  destruct (shr_m mrs''); try reflexivity.
  destruct (e'' <=? emax - prec)%Z; reflexivity.
Qed.

Lemma SFdiv_opp_l (x y : spec_float) :
  SFdiv prec emax (SFopp x) y = SFopp (SFdiv prec emax x y).
Proof.
  destruct x as [sx | sx | | sx mx ex], y as [sy | sy | | sy my ey];
    try reflexivity;
    try (destruct sx, sy; reflexivity).
  change (SFopp (S754_finite sx mx ex)) with (S754_finite (negb sx) mx ex).
  unfold SFdiv.
  destruct (SFdiv_core_binary prec emax (Zpos mx) ex (Zpos my) ey) as [[mz ez] lz].
  rewrite <- binary_round_aux_opp. destruct sx, sy; reflexivity.
Qed.

(** Half the opposite is the opposite of the half. *)
Lemma half_opp (d : float) : - d / 2 = - (d / 2).
Proof.
  apply Prim2SF_inj.
  rewrite opp_spec, !div_spec, opp_spec.
  unfold SF64div. apply SFdiv_opp_l.
Qed.

Lemma opp_involutive (x : float) : - - x = x.
Proof.
  apply Prim2SF_inj. rewrite !opp_spec.
  destruct (Prim2SF x) as [[|] | [|] | | [|] m e]; reflexivity.
Qed.

(** Python's float power at the exponent 2 does not see the sign of its
    operand, whatever the platform's [pow] is: the library is called on
    the magnitude. *)
Lemma float_pow_2_opp (pow : float -> float * Z) (x : float) :
  float_pow_2 pow (- x) = float_pow_2 pow x.
Proof.
  unfold float_pow_2, is_infinity.
  rewrite !FloatOrder.is_nan_spec, !eqb_spec, !abs_spec, !opp_spec.
  change (Prim2SF infinity) with (S754_infinity false).
  change (Prim2SF 0) with (S754_zero false).
  destruct (Prim2SF x) as [[|] | [|] | | [|] m e] eqn:E; cbn [SFopp SFabs SFeqb SFcompare];
    try reflexivity;
    try (f_equal; apply Prim2SF_inj; rewrite ?abs_spec, opp_spec, E; reflexivity).
  - (* a negative number *)
    assert (Hneg : (x <? 0) = true).
    { rewrite ltb_spec, E. reflexivity. }
    assert (Hpos : (- x <? 0) = false).
    { rewrite ltb_spec, opp_spec, E. reflexivity. }
    rewrite Hneg, Hpos. reflexivity.
  - (* a positive number *)
    assert (Hneg : (x <? 0) = false).
    { rewrite ltb_spec, E. reflexivity. }
    assert (Hpos : (- x <? 0) = true).
    { rewrite ltb_spec, opp_spec, E. reflexivity. }
    rewrite Hneg, Hpos, opp_involutive. reflexivity.
Qed.

(** The area does not see the sign of the diameter. *)
Lemma A_0_mm2_opp (pow : float -> float * Z) (d : float) :
  A_0_mm2 pow (- d) = A_0_mm2 pow d.
Proof.
  unfold A_0_mm2. cbv zeta. rewrite half_opp, float_pow_2_opp. reflexivity.
Qed.

(** A quotient by a zero of either sign is an infinity or NaN. *)
Lemma div_by_zero (x y : float) :
  (y =? 0) = true -> is_nan (x / y) = true \/ is_infinity (x / y) = true.
Proof.
  intros H. rewrite eqb_spec in H.
  change (Prim2SF 0) with (S754_zero false) in H.
  unfold is_infinity. rewrite FloatOrder.is_nan_spec, eqb_spec, abs_spec, div_spec.
  change (Prim2SF infinity) with (S754_infinity false).
  destruct (Prim2SF y) as [sy | [|] | | [|] my ey]; try discriminate H.
  destruct (Prim2SF x) as [sx | sx | | sx mx ex]; simpl; auto.
Qed.

(** A deviation above the threshold comes from a stress and a prediction
    that are numbers, the stress being at least [-1e-6]. *)
Lemma exceeding_stress (s p : float) :
  exceeds (deviation_at s p) = true ->
  is_nan s = false /\ is_nan p = false /\ (- epsilon <=? s) = true.
Proof.
  intros H.
  assert (Hs : is_nan s = false).
  { destruct (is_nan s) eqn:E; [| reflexivity].
    rewrite NaN.not_exceeding in H; [discriminate H |].
    unfold deviation_at. apply NaN.div_l, NaN.abs_nan, NaN.sub_l, E. }
  assert (Hp : is_nan p = false).
  { destruct (is_nan p) eqn:E; [| reflexivity].
    rewrite NaN.not_exceeding in H; [discriminate H |].
    unfold deviation_at. apply NaN.div_l, NaN.abs_nan, NaN.sub_r, E. }
  split; [exact Hs | split; [exact Hp |]].
  apply FloatOrder.ltb_false_leb; [exact Hs | reflexivity |].
  destruct (s <? - epsilon) eqn:E; [| reflexivity].
  pose proof (Deviation.denominator_negative s E) as Hden.
  pose proof (Deviation.quotient_negative (s - p) _ Hden) as Hneg.
  destruct (Deviation.negative_not_exceeding _ Hneg) as (Hex & _).
  unfold deviation_at in H. congruence.
Qed.

End Sign.

(** ** calculate_mechanical_properties *)

Lemma existsb_Exists {A : Type} (f : A -> bool) (l : list A) :
  existsb f l = true -> Exists (fun x => f x = true) l.
Proof.
  intros H. apply existsb_exists in H as (x & Hin & Hx).
  apply Exists_exists. exists x; split; assumption.
Qed.

Lemma existsb_Forall {A : Type} (f : A -> bool) (l : list A) :
  existsb f l = false -> Forall (fun x => f x = false) l.
Proof.
  intros H. apply Forall_forall. intros x Hin.
  destruct (f x) eqn:E; [| reflexivity].
  assert (existsb f l = true) by (apply existsb_exists; eauto). congruence.
Qed.

(** X1. The outcomes of the computation on a table of float64 columns.
    When line 31 raises, the [OverflowError] of a square out of range (or
    the [ValueError] of another error of the library), the computation
    raises it.  Otherwise it raises what the fit raises; when the fit
    returns, it returns a result if some deviation is above the threshold
    and raises [IndexError] otherwise.  Nothing else is raised: the two
    [np.max] and the two accesses at the yield index never fail. *)
Theorem X1_outcomes_of_the_computation
    (pow : float -> float * Z)
    (linregress : list float -> list float -> result (float * float))
    (data : DataFrame) (d g : float) :
  match A_0_mm2 pow d with
  | Raise e =>
      (e = OverflowError \/ e = ValueError) /\
      calculate_mechanical_properties pow linregress data d g = Raise e
  | Ok A_0 =>
      match linear_fit linregress (strain data g) (stress_MPa data A_0) with
      | Raise e => calculate_mechanical_properties pow linregress data d g = Raise e
      | Ok (slope, intercept) =>
          if existsb exceeds (deviation (stress_MPa data A_0)
                                (predicted_stress slope intercept (strain data g)))
          then exists r, calculate_mechanical_properties pow linregress data d g = Ok r
          else calculate_mechanical_properties pow linregress data d g = Raise IndexError
      end
  end.
Proof.
  destruct (A_0_mm2 pow d) as [A | e] eqn:HA.
  - destruct (linear_fit linregress (strain data g) (stress_MPa data A))
      as [[slope intercept] | e] eqn:Hfit.
    + destruct (existsb exceeds _) eqn:Hdev.
      * apply (calculate_returns pow linregress data d g A slope intercept HA Hfit).
        apply existsb_Exists, Hdev.
      * apply (detect_yield_raise pow linregress data d g A _ HA).
        unfold detect_yield. rewrite Hfit. simpl.
        apply yield_index_none, existsb_Forall, Hdev.
    + apply (linear_fit_raise pow linregress data d g A e HA Hfit).
  - split.
    + apply (float_pow_2_raise pow (d / 2)), A_0_mm2_Raise, HA.
    + apply A_0_mm2_raise, HA.
Qed.

(** X2. Whenever the computation returns, the yield index is an index of
    the table, and the yield stress is a number, not NaN, at least [-1e-6]
    MPa; when no stress of the curve is NaN it is at most the ultimate
    tensile strength. *)
Theorem X2_yield_stress_is_sound
    (pow : float -> float * Z)
    (linregress : list float -> list float -> result (float * float))
    (data : DataFrame) (d g : float) (r : Properties) :
  calculate_mechanical_properties pow linregress data d g = Ok r ->
  exists yi,
    detect_yield linregress data (area_mm2 r) g = Ok yi /\
    (yi < length data)%nat /\
    getitem (stress_MPa data (area_mm2 r)) yi = Ok (yield_stress_MPa r) /\
    is_nan (yield_stress_MPa r) = false /\
    (- epsilon <=? yield_stress_MPa r) = true /\
    (existsb is_nan (stress_MPa data (area_mm2 r)) = false ->
     (yield_stress_MPa r <=? uts_MPa r) = true).
Proof.
  intros H.
  destruct (calculate_stages _ _ _ _ _ _ H)
    as (A & yi & stress_y & strain_y & uts & dmax & _ & Hyi & Hs & He & Hmax & _ & ->).
  destruct (detect_yield_stages _ _ _ _ _ Hyi) as (k & slope & intercept & _ & _ & Hy).
  apply yield_index_first in Hy as [(x & Hx & Hex) _].
  apply getitem_map2 in Hx as (s & p & Hs' & _ & ->).
  assert (s = stress_y) by congruence. subst s.
  destruct (Sign.exceeding_stress _ _ Hex) as (Hnan & _ & Hlow).
  exists yi. cbn [area_mm2 yield_stress_MPa uts_MPa].
  split; [exact Hyi |].
  split; [rewrite <- (stress_MPa_length data A); apply (getitem_lt _ _ _ Hs) |].
  split; [exact Hs |]. split; [exact Hnan |]. split; [exact Hlow |].
  intros Hfree.
  destruct (np_max_spec _ _ Hmax) as (_ & _ & Hup).
  apply Hup; [exact Hfree |].
  apply getitem_nth_error in Hs. apply (nth_error_In _ _ Hs).
Qed.

(** X2 on the table [bilinear]. *)
Lemma X2_witness :
  exists r,
    calculate_mechanical_properties libm_pow scipy_linregress bilinear 6 32 = Ok r /\
    is_nan (yield_stress_MPa r) = false /\
    (- epsilon <=? yield_stress_MPa r) = true /\
    (yield_stress_MPa r <=? uts_MPa r) = true.
Proof.
  eexists. split; [vm_compute; reflexivity |].
  destruct (X2_yield_stress_is_sound libm_pow scipy_linregress bilinear 6 32 _
              ltac:(vm_compute; reflexivity))
    as (yi & _ & _ & _ & Hnan & Hlow & Hup).
  split; [exact Hnan |]. split; [exact Hlow |].
  apply Hup. vm_compute. reflexivity.
Defined.

(** X3. The sign of the diameter is not seen, whatever the platform's
    [pow] is: the area or the exception of line 31, the stresses and the
    whole outcome of the computation are those of the opposite diameter. *)
Theorem X3_sign_of_diameter_is_ignored
    (pow : float -> float * Z)
    (linregress : list float -> list float -> result (float * float))
    (data : DataFrame) (d g : float) :
  A_0_mm2 pow (- d) = A_0_mm2 pow d /\
  (forall A_0 A_0',
      A_0_mm2 pow d = Ok A_0 -> A_0_mm2 pow (- d) = Ok A_0' ->
      stress_MPa data A_0' = stress_MPa data A_0) /\
  calculate_mechanical_properties pow linregress data (- d) g
  = calculate_mechanical_properties pow linregress data d g.
Proof.
  pose proof (Sign.A_0_mm2_opp pow d) as Harea.
  split; [exact Harea | split].
  - intros A A' HA HA'. rewrite Harea in HA'. congruence.
  - unfold calculate_mechanical_properties. rewrite Harea. reflexivity.
Qed.

(** X4. A fit that returns NaN for its slope or for its intercept never
    gives a result: every deviation is NaN, none is above the threshold,
    and the computation, when line 31 has computed the area, fails with the
    [IndexError] of the yield lookup. *)
Theorem X4_degenerate_fit_fails
    (pow : float -> float * Z)
    (linregress : list float -> list float -> result (float * float))
    (data : DataFrame) (d g A_0 slope intercept : float) :
  linear_fit linregress (strain data g) (stress_MPa data A_0) = Ok (slope, intercept) ->
  (is_nan slope || is_nan intercept)%bool = true ->
  Forall (fun x => is_nan x = true)
         (deviation (stress_MPa data A_0)
            (predicted_stress slope intercept (strain data g))) /\
  detect_yield linregress data A_0 g = Raise IndexError /\
  (A_0_mm2 pow d = Ok A_0 ->
   calculate_mechanical_properties pow linregress data d g = Raise IndexError).
Proof.
  intros Hfit Hnan.
  pose proof (NaN.line_nan slope intercept (stress_MPa data A_0) (strain data g) Hnan)
    as Hdev.
  split; [exact Hdev | split].
  - unfold detect_yield. rewrite Hfit. simpl.
    apply yield_index_none.
    eapply Forall_impl; [| exact Hdev].
    intros x Hx. apply NaN.not_exceeding, Hx.
  - intros HA.
    apply (linear_fit_nan pow linregress data d g A_0 slope intercept HA Hfit Hnan).
Qed.

(** X4 on the first nineteen rows of [bilinear], fitted on one point. *)
Lemma X4_witness :
  exists A_0,
    A_0_mm2 libm_pow 6 = Ok A_0 /\
    linear_fit scipy_linregress (strain (firstn 19 bilinear) 32)
      (stress_MPa (firstn 19 bilinear) A_0) = Ok (nan, nan) /\
    calculate_mechanical_properties libm_pow scipy_linregress (firstn 19 bilinear) 6 32
    = Raise IndexError.
Proof.
  eexists.
  assert (HA : A_0_mm2 libm_pow 6 = Ok _) by (vm_compute; reflexivity).
  split; [exact HA |].
  split; [vm_compute; reflexivity |].
  refine (proj2 (proj2 (X4_degenerate_fit_fails libm_pow scipy_linregress
                          (firstn 19 bilinear) 6 32 _ nan nan _ _)) HA).
  - vm_compute. reflexivity.
  - reflexivity.
Defined.

(** X5. A strain of zero at the yield index raises nothing: the division
    of line 44 is a quotient by zero, and the Young's modulus returned is
    an infinity or NaN. *)
Theorem X5_zero_strain_at_yield
    (pow : float -> float * Z)
    (linregress : list float -> list float -> result (float * float))
    (data : DataFrame) (d g : float) (r : Properties) (yi : nat) (strain_y : float) :
  calculate_mechanical_properties pow linregress data d g = Ok r ->
  detect_yield linregress data (area_mm2 r) g = Ok yi ->
  getitem (strain data g) yi = Ok strain_y ->
  (strain_y =? 0) = true ->
  is_nan (youngs_modulus_MPa r) = true \/ is_infinity (youngs_modulus_MPa r) = true.
Proof.
  intros H Hyi He Hzero.
  destruct (calculate_stages _ _ _ _ _ _ H)
    as (A & yi' & stress_y & strain_y' & uts & dmax & _ & Hyi' & Hs & He' & _ & _ & ->).
  cbn [area_mm2] in Hyi.
  assert (yi' = yi) by congruence. subst yi'.
  assert (strain_y' = strain_y) by congruence. subst strain_y'.
  cbn [youngs_modulus_MPa]. apply Sign.div_by_zero, Hzero.
Qed.

(** X5 on the table [stalled], whose yield is its eleventh row, of
    displacement zero: the modulus is [inf]. *)
Lemma X5_witness :
  exists r,
    calculate_mechanical_properties libm_pow scipy_linregress stalled 6 32 = Ok r /\
    detect_yield scipy_linregress stalled (area_mm2 r) 32 = Ok 10%nat /\
    getitem (strain stalled 32) 10 = Ok 0 /\
    youngs_modulus_MPa r = infinity /\
    (is_nan (youngs_modulus_MPa r) = true \/ is_infinity (youngs_modulus_MPa r) = true).
Proof.
  eexists. split; [vm_compute; reflexivity |].
  split; [vm_compute; reflexivity |]. split; [vm_compute; reflexivity |].
  split; [reflexivity |].
  apply (X5_zero_strain_at_yield libm_pow scipy_linregress stalled 6 32 _ 10 0).
  - vm_compute. reflexivity.
  - vm_compute. reflexivity.
  - vm_compute. reflexivity.
  - reflexivity.
Defined.

(** X6. The fit sees the first tenth of the table only: two tables of one
    length, below [2 ^ 52], with the same first [n / 10] rows get the same
    fit, whatever their other rows are. *)
Theorem X6_fit_depends_on_the_prefix_only
    (linregress : list float -> list float -> result (float * float))
    (data data' : DataFrame) (A_0 g : float) :
  length data = length data' ->
  (Z.of_nat (length data) < 2 ^ 52)%Z ->
  firstn (length data / 10) data = firstn (length data / 10) data' ->
  linear_fit linregress (strain data g) (stress_MPa data A_0)
  = linear_fit linregress (strain data' g) (stress_MPa data' A_0).
Proof.
  intros Hlen Hn Hprefix.
  rewrite (linear_fit_tenth linregress data A_0 g Hn).
  rewrite (linear_fit_tenth linregress data' A_0 g) by (rewrite <- Hlen; exact Hn).
  rewrite <- Hlen.
  unfold strain, stress_MPa, Displacement_mm, Load_kN.
  rewrite !firstn_map, Hprefix. reflexivity.
Qed.

(** X6 on [bilinear] and [shuffled], which share their first two rows. *)
Lemma X6_witness :
  linear_fit scipy_linregress (strain bilinear 32) (stress_MPa bilinear (np_pi * 9))
  = linear_fit scipy_linregress (strain shuffled 32) (stress_MPa shuffled (np_pi * 9)).
Proof.
  apply X6_fit_depends_on_the_prefix_only; reflexivity.
Defined.

(** ** update_output *)

Lemma combine_columns (data : DataFrame) :
  combine (Load_kN data) (Displacement_mm data) = data.
Proof.
  unfold Load_kN, Displacement_mm.
  induction data as [| [l x] data IH]; simpl; [reflexivity |].
  rewrite IH. reflexivity.
Qed.

Section CallbackProperties.

Variable pow : float -> float * Z.
Variable linregress : list float -> list float -> result (float * float).
Variable process_csv_data : string -> string -> DataFrame + string.
Variable generate_plots : LoadDisplacement.t -> StressStrain.t -> result string.

(** With a positive click count, an upload and three positive numbers,
    the callback decodes the upload, computes and renders. *)
Lemma update_output_past_the_guards
    (n_clicks : Z) (uploaded filename : string) (diameter gauge_length rate : field) :
  n_clicks <> 0%Z ->
  positive_number diameter = true ->
  positive_number gauge_length = true ->
  positive_number rate = true ->
  update_output pow linregress process_csv_data generate_plots
    n_clicks (Some uploaded) filename diameter gauge_length rate
  = match process_csv_data uploaded filename with
    | inr error => Ok (Message error)
    | inl data =>
        results <- calculate_mechanical_properties pow linregress data
                     (number_of diameter) (number_of gauge_length) ;;
        plot_base64 <- generate_plots (load_displacement_data results)
                         (stress_strain_data results) ;;
        Ok (Report results plot_base64)
    end.
Proof.
  intros Hn Hd Hg Hr. unfold update_output.
  destruct (Z.eqb_spec n_clicks 0) as [E | _]; [contradiction |].
  simpl forallb. rewrite Hd, Hg, Hr. reflexivity.
Qed.

(** Before that, it answers with one of its two fixed messages. *)
Lemma update_output_stopped_by_the_guards
    (n_clicks : Z) (contents : option string) (filename : string)
    (diameter gauge_length rate : field) :
  n_clicks = 0%Z \/ contents = None \/
  forallb positive_number [diameter; gauge_length; rate] = false ->
  update_output pow linregress process_csv_data generate_plots
    n_clicks contents filename diameter gauge_length rate
  = Ok (Message (if ((n_clicks =? 0)%Z || match contents with None => true | Some _ => false end)%bool
                 then "Please upload a file and click Calculate."
                 else "Inputs must be positive numbers.")).
Proof.
  intros H. unfold update_output.
  destruct contents as [uploaded |]; [| rewrite orb_true_r; reflexivity].
  destruct (Z.eqb_spec n_clicks 0) as [E | NE]; [reflexivity |].
  destruct H as [H | [H | H]]; [contradiction | discriminate H |].
  rewrite H. reflexivity.
Qed.

(** The guards, read backwards from an outcome that is not one of the two
    fixed messages. *)
Lemma update_output_guards_passed
    (n_clicks : Z) (contents : option string) (filename : string)
    (diameter gauge_length rate : field) (outcome : result display) :
  update_output pow linregress process_csv_data generate_plots
    n_clicks contents filename diameter gauge_length rate = outcome ->
  (forall text, outcome <> Ok (Message text)) ->
  exists uploaded data,
    contents = Some uploaded /\
    n_clicks <> 0%Z /\
    positive_number diameter = true /\
    positive_number gauge_length = true /\
    positive_number rate = true /\
    process_csv_data uploaded filename = inl data /\
    outcome
    = (results <- calculate_mechanical_properties pow linregress data
                    (number_of diameter) (number_of gauge_length) ;;
       plot_base64 <- generate_plots (load_displacement_data results)
                        (stress_strain_data results) ;;
       Ok (Report results plot_base64)).
Proof.
  intros H Hno.
  destruct contents as [uploaded |];
    [| rewrite update_output_stopped_by_the_guards in H by auto;
       exfalso; eapply Hno; symmetry; exact H].
  destruct (Z.eq_dec n_clicks 0) as [E | NE];
    [rewrite update_output_stopped_by_the_guards in H by auto;
     exfalso; eapply Hno; symmetry; exact H |].
  destruct (forallb positive_number [diameter; gauge_length; rate]) eqn:Hall;
    [| rewrite update_output_stopped_by_the_guards in H by auto;
       exfalso; eapply Hno; symmetry; exact H].
  simpl in Hall. apply andb_prop in Hall as [Hd Hall].
  apply andb_prop in Hall as [Hg Hall]. apply andb_prop in Hall as [Hr _].
  rewrite update_output_past_the_guards in H by assumption.
  destruct (process_csv_data uploaded filename) as [data | error] eqn:Hcsv;
    [| exfalso; eapply Hno; symmetry; exact H].
  exists uploaded, data. repeat (split; [assumption || reflexivity |]).
  symmetry. exact H.
Qed.

End CallbackProperties.

(** X7. The callback catches nothing: it raises exactly when the click
    count is not zero, a file is uploaded, the three numbers are positive,
    the upload decodes to a table, and either the computation raises on
    that table or, the computation having returned, the rendering of its
    curves raises; the exception is theirs.  A failing computation or
    rendering is never turned into a message. *)
Theorem X7_callback_propagates_exceptions
    (pow : float -> float * Z)
    (linregress : list float -> list float -> result (float * float))
    (process_csv_data : string -> string -> DataFrame + string)
    (generate_plots : LoadDisplacement.t -> StressStrain.t -> result string)
    (n_clicks : Z) (contents : option string) (filename : string)
    (diameter gauge_length rate : field) (e : exn) :
  update_output pow linregress process_csv_data generate_plots
    n_clicks contents filename diameter gauge_length rate = Raise e
  <->
  exists uploaded data,
    contents = Some uploaded /\
    n_clicks <> 0%Z /\
    positive_number diameter = true /\
    positive_number gauge_length = true /\
    positive_number rate = true /\
    process_csv_data uploaded filename = inl data /\
    (calculate_mechanical_properties pow linregress data
       (number_of diameter) (number_of gauge_length) = Raise e \/
     exists results,
       calculate_mechanical_properties pow linregress data
         (number_of diameter) (number_of gauge_length) = Ok results /\
       generate_plots (load_displacement_data results) (stress_strain_data results)
       = Raise e).
Proof.
  split.
  - intros H.
    destruct (update_output_guards_passed _ _ _ _ _ _ _ _ _ _ _ H)
      as (uploaded & data & Hc & Hn & Hd & Hg & Hr & Hcsv & Hout);
      [discriminate |].
    exists uploaded, data. repeat (split; [assumption |]).
    destruct (calculate_mechanical_properties pow linregress data _ _) as [r | e'];
      simpl in Hout.
    + right. exists r. split; [reflexivity |].
      destruct (generate_plots _ _) as [png | e']; simpl in Hout; congruence.
    + left. congruence.
  - intros (uploaded & data & -> & Hn & Hd & Hg & Hr & Hcsv & [Hcalc | (r & Hcalc & Hplot)]).
    + rewrite update_output_past_the_guards by assumption.
      rewrite Hcsv, Hcalc. reflexivity.
    + rewrite update_output_past_the_guards by assumption.
      rewrite Hcsv, Hcalc. simpl. rewrite Hplot. reflexivity.
Qed.

(** X7 on an upload that decodes to [linear]: the callback raises the
    [IndexError] of the yield lookup; and on an upload that decodes to
    [bilinear] with a rendering that fails: the callback raises the
    exception of the rendering. *)
Lemma X7_witness :
  update_output libm_pow scipy_linregress (fun _ _ => inl linear)
    (fun _ _ => Ok "png"%string) 1 (Some "upload"%string)
    "test.csv"%string (Number 6) (Number 32) (Number 2) = Raise IndexError /\
  update_output libm_pow scipy_linregress (fun _ _ => inl bilinear)
    (fun _ _ => Raise (OtherError "RuntimeError")) 1 (Some "upload"%string)
    "test.csv"%string (Number 6) (Number 32) (Number 2)
  = Raise (OtherError "RuntimeError").
Proof.
  split.
  - apply (proj2 (X7_callback_propagates_exceptions libm_pow scipy_linregress
                    (fun _ _ => inl linear) (fun _ _ => Ok "png"%string)
                    1 (Some "upload"%string) "test.csv"%string
                    (Number 6) (Number 32) (Number 2) IndexError)).
    exists "upload"%string, linear.
    split; [reflexivity |]. split; [discriminate |].
    split; [reflexivity |]. split; [reflexivity |]. split; [reflexivity |].
    split; [reflexivity |]. left. vm_compute. reflexivity.
  - apply (proj2 (X7_callback_propagates_exceptions libm_pow scipy_linregress
                    (fun _ _ => inl bilinear)
                    (fun _ _ => Raise (OtherError "RuntimeError"))
                    1 (Some "upload"%string) "test.csv"%string
                    (Number 6) (Number 32) (Number 2) (OtherError "RuntimeError"))).
    exists "upload"%string, bilinear.
    split; [reflexivity |]. split; [discriminate |].
    split; [reflexivity |]. split; [reflexivity |]. split; [reflexivity |].
    split; [reflexivity |]. right. eexists.
    split; [vm_compute; reflexivity | reflexivity].
Defined.

(** X8. The displacement rate is tested and never used: any two positive
    rates give the same outcome. *)
Theorem X8_displacement_rate_is_not_used
    (pow : float -> float * Z)
    (linregress : list float -> list float -> result (float * float))
    (process_csv_data : string -> string -> DataFrame + string)
    (generate_plots : LoadDisplacement.t -> StressStrain.t -> result string)
    (n_clicks : Z) (contents : option string) (filename : string)
    (diameter gauge_length rate rate' : field) :
  positive_number rate = true ->
  positive_number rate' = true ->
  update_output pow linregress process_csv_data generate_plots
    n_clicks contents filename diameter gauge_length rate
  = update_output pow linregress process_csv_data generate_plots
      n_clicks contents filename diameter gauge_length rate'.
Proof.
  intros Hr Hr'. unfold update_output. simpl forallb. rewrite Hr, Hr'. reflexivity.
Qed.

(** X8 on the rates 2 and 500 mm/s. *)
Lemma X8_witness :
  update_output libm_pow scipy_linregress (fun _ _ => inl bilinear)
    (fun _ _ => Ok "png"%string) 1 (Some "upload"%string)
    "test.csv"%string (Number 6) (Number 32) (Number 2)
  = update_output libm_pow scipy_linregress (fun _ _ => inl bilinear)
      (fun _ _ => Ok "png"%string) 1 (Some "upload"%string)
      "test.csv"%string (Number 6) (Number 32) (Number 500).
Proof.
  apply X8_displacement_rate_is_not_used; reflexivity.
Defined.

(** X9. The messages of the callback and their precedence.  A message is
    shown in three situations only: the prompt, when nothing was clicked or
    nothing uploaded, whatever the numbers are; the refusal of the numbers,
    when one of the three is empty or not above zero, before the upload is
    decoded; the error text of the decoding, otherwise. *)
Theorem X9_messages_of_the_callback
    (pow : float -> float * Z)
    (linregress : list float -> list float -> result (float * float))
    (process_csv_data : string -> string -> DataFrame + string)
    (generate_plots : LoadDisplacement.t -> StressStrain.t -> result string)
    (n_clicks : Z) (contents : option string) (filename : string)
    (diameter gauge_length rate : field) (text : string) :
  update_output pow linregress process_csv_data generate_plots
    n_clicks contents filename diameter gauge_length rate = Ok (Message text)
  <->
  ((n_clicks = 0%Z \/ contents = None) /\
   text = "Please upload a file and click Calculate."%string) \/
  (n_clicks <> 0%Z /\ contents <> None /\
   forallb positive_number [diameter; gauge_length; rate] = false /\
   text = "Inputs must be positive numbers."%string) \/
  (n_clicks <> 0%Z /\
   forallb positive_number [diameter; gauge_length; rate] = true /\
   exists uploaded,
     contents = Some uploaded /\ process_csv_data uploaded filename = inr text).
Proof.
  destruct contents as [uploaded |].
  - destruct (Z.eq_dec n_clicks 0) as [E | NE].
    + rewrite update_output_stopped_by_the_guards by auto.
      subst n_clicks. simpl. split.
      * intros H. injection H as <-. left. split; [left |]; reflexivity.
      * intros [[_ ->] | [(NE & _) | (NE & _)]]; [reflexivity | |]; contradiction.
    + destruct (forallb positive_number [diameter; gauge_length; rate]) eqn:Hall.
      * pose proof Hall as Hall'. simpl in Hall'.
        apply andb_prop in Hall' as [Hd Hall'].
        apply andb_prop in Hall' as [Hg Hall']. apply andb_prop in Hall' as [Hr _].
        rewrite update_output_past_the_guards by assumption.
        split.
        -- intros H. right; right. split; [exact NE | split; [reflexivity |]].
           exists uploaded. split; [reflexivity |].
           destruct (process_csv_data uploaded filename) as [data | error].
           ++ destruct (calculate_mechanical_properties pow linregress data _ _)
                as [r | e']; simpl in H; [| discriminate H].
              destruct (generate_plots _ _); discriminate H.
           ++ congruence.
        -- intros [[[E | E] _] | [(_ & _ & E & _) | (_ & _ & u & Eu & Hcsv)]];
             try contradiction; try discriminate.
           injection Eu as <-. rewrite Hcsv. reflexivity.
      * rewrite update_output_stopped_by_the_guards by auto.
        destruct (Z.eqb_spec n_clicks 0) as [E | _]; [contradiction |]. simpl.
        split.
        -- intros H. injection H as <-. right; left.
           repeat split; try assumption. discriminate.
        -- intros [[[E | E] _] | [(_ & _ & _ & ->) | (_ & E & _)]];
             try contradiction; try discriminate. reflexivity.
  - rewrite update_output_stopped_by_the_guards by auto.
    rewrite orb_true_r. split.
    + intros H. injection H as <-. left. split; [right |]; reflexivity.
    + intros [[_ ->] | [(_ & NE & _) | (_ & _ & u & Eu & _)]];
        [reflexivity | contradiction | discriminate].
Qed.

(** X9 on a form whose rate is empty, and on an upload that does not
    decode. *)
Lemma X9_witness :
  update_output libm_pow scipy_linregress (fun _ _ => inl bilinear)
    (fun _ _ => Ok "png"%string) 1 (Some "upload"%string)
    "test.csv"%string (Number 6) (Number 32) Empty
  = Ok (Message "Inputs must be positive numbers.") /\
  update_output libm_pow scipy_linregress
    (fun _ _ => inr "Error processing file: bad"%string)
    (fun _ _ => Ok "png"%string) 1
    (Some "upload"%string) "test.csv"%string (Number 6) (Number 32) (Number 2)
  = Ok (Message "Error processing file: bad").
Proof.
  split.
  - apply (proj2 (X9_messages_of_the_callback libm_pow scipy_linregress
                    (fun _ _ => inl bilinear) (fun _ _ => Ok "png"%string)
                    1 (Some "upload"%string) "test.csv"%string
                    (Number 6) (Number 32) Empty _)).
    right; left. split; [discriminate |]. split; [discriminate |].
    split; reflexivity.
  - apply (proj2 (X9_messages_of_the_callback libm_pow scipy_linregress
                    (fun _ _ => inr "Error processing file: bad"%string)
                    (fun _ _ => Ok "png"%string)
                    1 (Some "upload"%string) "test.csv"%string
                    (Number 6) (Number 32) (Number 2) _)).
    right; right. split; [discriminate |]. split; [reflexivity |].
    exists "upload"%string. split; reflexivity.
Defined.

(** X10. What is plotted.  Beside a message both figures are empty.
    Beside a report each figure has one trace of as many points as the
    uploaded table has rows: point [i] of the first is the displacement and
    the load of row [i], point [i] of the second its strain and its
    stress. *)
Theorem X10_figures_plot_the_table
    (pow : float -> float * Z)
    (linregress : list float -> list float -> result (float * float))
    (process_csv_data : string -> string -> DataFrame + string)
    (generate_plots : LoadDisplacement.t -> StressStrain.t -> result string)
    (n_clicks : Z) (contents : option string) (filename : string)
    (diameter gauge_length rate : field) (shown : display) :
  update_output pow linregress process_csv_data generate_plots
    n_clicks contents filename diameter gauge_length rate = Ok shown ->
  match shown with
  | Message _ => figures shown = (None, None)
  | Report results _ =>
      exists uploaded table first second loads curve,
        contents = Some uploaded /\
        process_csv_data uploaded filename = inl table /\
        A_0_mm2 pow (number_of diameter) = Ok (area_mm2 results) /\
        figures shown = (Some first, Some second) /\
        Figure.data first = [loads] /\
        Figure.data second = [curve] /\
        combine (Figure.y loads) (Figure.x loads) = table /\
        Figure.x loads = Displacement_mm table /\
        Figure.x curve = strain table (number_of gauge_length) /\
        Figure.y curve = stress_MPa table (area_mm2 results) /\
        length (Figure.x loads) = length table /\
        length (Figure.y loads) = length table /\
        length (Figure.x curve) = length table /\
        length (Figure.y curve) = length table
  end.
Proof.
  intros H. destruct shown as [text | results png]; [reflexivity |].
  destruct (update_output_guards_passed _ _ _ _ _ _ _ _ _ _ _ H)
    as (uploaded & table & Hc & Hn & Hd & Hg & Hr & Hcsv & Hout); [discriminate |].
  symmetry in Hout.
  apply bind_Ok in Hout as (r & Hcalc & Hout).
  apply bind_Ok in Hout as (png' & _ & Hout).
  injection Hout as <- <-.
  destruct (calculate_stages _ _ _ _ _ _ Hcalc)
    as (A & yi & stress_y & strain_y & uts & dmax & HA & _ & _ & _ & _ & _ & ->).
  exists uploaded, table. do 4 eexists.
  split; [exact Hc |]. split; [exact Hcsv |]. split; [exact HA |].
  split; [reflexivity |]. split; [reflexivity |]. split; [reflexivity |].
  cbn [Figure.x Figure.y load_displacement_data stress_strain_data area_mm2
       LoadDisplacement.displacement LoadDisplacement.load
       StressStrain.strain StressStrain.stress].
  split; [apply combine_columns |].
  repeat (split; [reflexivity |]).
  unfold Load_kN, Displacement_mm.
  rewrite !length_map, strain_length, stress_MPa_length. repeat split.
Qed.

(** X10 on an upload that decodes to [bilinear]. *)
Lemma X10_witness :
  exists results first second loads curve,
    update_output libm_pow scipy_linregress (fun _ _ => inl bilinear)
      (fun _ _ => Ok "png"%string) 1 (Some "upload"%string)
      "test.csv"%string (Number 6) (Number 32) (Number 2)
    = Ok (Report results "png") /\
    figures (Report results "png") = (Some first, Some second) /\
    Figure.data first = [loads] /\
    Figure.data second = [curve] /\
    combine (Figure.y loads) (Figure.x loads) = bilinear /\
    length (Figure.x curve) = 20%nat /\
    length (Figure.y curve) = 20%nat.
Proof.
  assert (H : update_output libm_pow scipy_linregress (fun _ _ => inl bilinear)
                (fun _ _ => Ok "png"%string) 1
                (Some "upload"%string) "test.csv"%string (Number 6) (Number 32) (Number 2)
              = Ok (Report _ "png")) by (vm_compute; reflexivity).
  destruct (X10_figures_plot_the_table _ _ _ _ _ _ _ _ _ _ _ H)
    as (uploaded & table & first & second & loads & curve & _ & Hcsv & _ & Hfig & H1 & H2
        & Hpoints & _ & _ & _ & _ & _ & Hx & Hy).
  injection Hcsv as <-.
  eexists. exists first, second, loads, curve.
  split; [exact H |]. split; [exact Hfig |].
  split; [exact H1 |]. split; [exact H2 |]. split; [exact Hpoints |].
  split; [exact Hx | exact Hy].
Defined.

(** ** process_csv_data *)

Lemma split_on_length (sep : ascii) (s : string) :
  length (split_on sep s) = S (occurrences sep s).
Proof.
  induction s as [| c s IH]; simpl; [reflexivity |].
  destruct (Ascii.eqb c sep); simpl; [rewrite IH; reflexivity |].
  destruct (split_on sep s) as [| piece pieces]; simpl in *; [discriminate IH | exact IH].
Qed.

Lemma split_on_whole (sep : ascii) (s : string) :
  occurrences sep s = 0%nat -> split_on sep s = [s].
Proof.
  induction s as [| c s IH]; simpl; [reflexivity |].
  destruct (Ascii.eqb c sep); simpl; [discriminate |].
  intros H. rewrite (IH H). reflexivity.
Qed.

Lemma split_on_app (sep : ascii) (head rest : string) :
  occurrences sep head = 0%nat ->
  split_on sep (head ++ String sep rest) = head :: split_on sep rest.
Proof.
  induction head as [| c head IH]; simpl.
  - intros _. rewrite Ascii.eqb_refl. reflexivity.
  - destruct (Ascii.eqb c sep); simpl; [discriminate |].
    intros H. rewrite (IH H). reflexivity.
Qed.

(** Joining the pieces with the separator gives the string back. *)
Lemma split_on_concat (sep : ascii) (s : string) :
  String.concat (String sep EmptyString) (split_on sep s) = s.
Proof.
  induction s as [| c s IH]; simpl; [reflexivity |].
  destruct (Ascii.eqb_spec c sep) as [-> | NE].
  - pose proof (split_on_length sep s) as Hlen.
    destruct (split_on sep s) as [| piece pieces] eqn:E; [discriminate Hlen |].
    change (String.concat (String sep EmptyString) (EmptyString :: piece :: pieces))
      with (String sep (String.concat (String sep EmptyString) (piece :: pieces))).
    rewrite IH. reflexivity.
  - pose proof (split_on_length sep s) as Hlen.
    destruct (split_on sep s) as [| piece pieces] eqn:E; [discriminate Hlen |].
    destruct pieces as [| piece' pieces]; simpl in *; rewrite <- IH; reflexivity.
Qed.

Lemma has_column_In (names : list string) (col : string) :
  has_column names col = true <-> In col names.
Proof.
  unfold has_column. rewrite existsb_exists. split.
  - intros (x & Hin & Heq). apply String.eqb_eq in Heq. subst. exact Hin.
  - intros Hin. exists col. split; [exact Hin | apply String.eqb_refl].
Qed.

Lemma required_columns_present (names : list string) :
  forallb (has_column names) required_columns = true <->
  In "Load_kN"%string names /\ In "Displacement_mm"%string names.
Proof.
  unfold required_columns. simpl. rewrite andb_true_r, andb_true_iff, !has_column_In.
  reflexivity.
Qed.

Section UploadProperties.

Variable Frame : Type.
Variable columns : Frame -> list string.
Variable b64decode : string -> string + string.
Variable utf8_decode : string -> string + string.
Variable read_csv : string -> Frame + string.
Variable unpack_message : nat -> string.

Local Abbreviation body :=
  (process_csv_data_body Frame columns b64decode utf8_decode read_csv unpack_message).

(** What the body of the [try] returns. *)
Lemma body_returns (contents : string) (returned : option Frame * option string) :
  body contents = inl returned ->
  (exists data, returned = (Some data, None) /\
                In "Load_kN"%string (columns data) /\
                In "Displacement_mm"%string (columns data)) \/
  returned = (None, Some "CSV must contain 'Load_kN' and 'Displacement_mm' columns."%string).
Proof.
  unfold process_csv_data_body.
  destruct (split_on "," contents) as [| content_type [| content_string [| extra parts]]];
    try discriminate.
  destruct (b64decode content_string) as [decoded | raised]; [| discriminate].
  destruct (utf8_decode decoded) as [text | raised]; [| discriminate].
  destruct (read_csv text) as [data | raised]; [| discriminate].
  destruct (forallb (has_column (columns data)) required_columns) eqn:Hcols; simpl;
    intros H; injection H as <-.
  - left. exists data. split; [reflexivity |].
    apply required_columns_present, Hcols.
  - right. reflexivity.
Qed.

(** The body on a string that has not exactly one comma. *)
Lemma body_unpack (contents : string) :
  occurrences "," contents <> 1%nat ->
  body contents = inr (unpack_message (S (occurrences "," contents))).
Proof.
  intros H. unfold process_csv_data_body.
  pose proof (split_on_length "," contents) as Hlen.
  destruct (split_on "," contents) as [| content_type [| content_string [| extra parts]]];
    simpl in Hlen; try (rewrite <- Hlen; reflexivity).
  exfalso. apply H. congruence.
Qed.

(** The body on a header, a comma and a payload. *)
Lemma body_header (header payload : string) :
  occurrences "," header = 0%nat ->
  body (header ++ String "," payload)
  = match split_on "," payload with
    | [content_string] =>
        match b64decode content_string with
        | inr raised => inr raised
        | inl decoded =>
            match utf8_decode decoded with
            | inr raised => inr raised
            | inl text =>
                match read_csv text with
                | inr raised => inr raised
                | inl data =>
                    if negb (forallb (has_column (columns data)) required_columns)
                    then inl (None,
                              Some "CSV must contain 'Load_kN' and 'Displacement_mm' columns."%string)
                    else inl (Some data, None)
                end
            end
        end
    | parts => inr (unpack_message (S (length parts)))
    end.
Proof.
  intros H. unfold process_csv_data_body. rewrite (split_on_app _ _ _ H).
  destruct (split_on "," payload) as [| content_string [| extra parts]]; reflexivity.
Qed.

End UploadProperties.

(** X11. What the decoding of an upload returns.  It returns a table and
    no error, or no table and an error text, never both and never neither;
    the error text is never empty, so that the test [if error:] of the
    caller sees every failure; and a table returned has both columns
    [Load_kN] and [Displacement_mm], so that the computation finds them. *)
Theorem X11_table_or_error
    (Frame : Type) (columns : Frame -> list string)
    (b64decode utf8_decode : string -> string + string)
    (read_csv : string -> Frame + string) (unpack_message : nat -> string)
    (contents filename : string) :
  (exists data,
      process_csv_data Frame columns b64decode utf8_decode read_csv unpack_message
        contents filename = (Some data, None) /\
      In "Load_kN"%string (columns data) /\
      In "Displacement_mm"%string (columns data)) \/
  (exists text,
      process_csv_data Frame columns b64decode utf8_decode read_csv unpack_message
        contents filename = (None, Some text) /\
      truthy (Some text) = true).
Proof.
  unfold process_csv_data.
  destruct (process_csv_data_body Frame columns b64decode utf8_decode read_csv
              unpack_message contents) as [returned | raised] eqn:Hbody.
  - destruct (body_returns _ _ _ _ _ _ _ _ Hbody) as [(data & -> & Hcols) | ->].
    + left. exists data. split; [reflexivity | exact Hcols].
    + right. eexists. split; reflexivity.
  - right. eexists. split; reflexivity.
Qed.

(** X12. An upload that has not exactly one comma is refused before
    anything is decoded: the unpacking of line 14 raises, and the error
    text is that of its [ValueError] for one more piece than there are
    commas, whatever the three decoders would do. *)
Theorem X12_one_comma_is_required
    (Frame : Type) (columns : Frame -> list string)
    (b64decode utf8_decode : string -> string + string)
    (read_csv : string -> Frame + string) (unpack_message : nat -> string)
    (contents filename : string) :
  occurrences "," contents <> 1%nat ->
  process_csv_data Frame columns b64decode utf8_decode read_csv unpack_message
    contents filename
  = (None, Some ("Error processing file: "
                 ++ unpack_message (S (occurrences "," contents)))%string).
Proof.
  intros H. unfold process_csv_data. rewrite body_unpack by exact H. reflexivity.
Qed.

(** X12 on a data URL whose media type has a comma of its own. *)
Lemma X12_witness :
  process_csv_data (list string) (fun names => names) inl inl
    (fun text => inl (split_on "," text)) (fun n => "unpack"%string)
    "data:text/csv;note=a,b;base64,TG9hZF9rTg=="%string "test.csv"%string
  = (None, Some "Error processing file: unpack"%string).
Proof.
  apply (X12_one_comma_is_required (list string) (fun names => names) inl inl
           (fun text => inl (split_on "," text)) (fun n => "unpack"%string)).
  vm_compute. discriminate.
Defined.

(** X13. The media type and the file name are not looked at: two uploads
    with the same text after their first comma, and no comma before it, are
    decoded alike, whatever their file names are. *)
Theorem X13_header_and_filename_are_ignored
    (Frame : Type) (columns : Frame -> list string)
    (b64decode utf8_decode : string -> string + string)
    (read_csv : string -> Frame + string) (unpack_message : nat -> string)
    (header header' payload filename filename' : string) :
  occurrences "," header = 0%nat ->
  occurrences "," header' = 0%nat ->
  process_csv_data Frame columns b64decode utf8_decode read_csv unpack_message
    (header ++ String "," payload) filename
  = process_csv_data Frame columns b64decode utf8_decode read_csv unpack_message
      (header' ++ String "," payload) filename'.
Proof.
  intros H H'. unfold process_csv_data.
  rewrite !body_header by assumption. reflexivity.
Qed.

(** X13 on a CSV and a spreadsheet media type. *)
Lemma X13_witness :
  process_csv_data (list string) (fun names => names) inl inl
    (fun text => inl (split_on "," text)) (fun n => "unpack"%string)
    "data:text/csv;base64,TG9hZF9rTg=="%string "test.csv"%string
  = process_csv_data (list string) (fun names => names) inl inl
      (fun text => inl (split_on "," text)) (fun n => "unpack"%string)
      "data:application/vnd.ms-excel;base64,TG9hZF9rTg=="%string "book.xls"%string.
Proof.
  apply (X13_header_and_filename_are_ignored (list string) (fun names => names) inl inl
           (fun text => inl (split_on "," text)) (fun n => "unpack"%string)
           "data:text/csv;base64" "data:application/vnd.ms-excel;base64"
           "TG9hZF9rTg==");
    reflexivity.
Defined.

(** X14. The test on the columns.  When the upload is a header, one comma
    and a payload that the three decoders turn into a table, the table is
    returned as it is if [Load_kN] and [Displacement_mm] are both among its
    columns, in any order and beside any others; if one is missing the
    fixed message is returned, without a table. *)
Theorem X14_required_columns
    (Frame : Type) (columns : Frame -> list string)
    (b64decode utf8_decode : string -> string + string)
    (read_csv : string -> Frame + string) (unpack_message : nat -> string)
    (header payload filename decoded text : string) (data : Frame) :
  occurrences "," header = 0%nat ->
  occurrences "," payload = 0%nat ->
  b64decode payload = inl decoded ->
  utf8_decode decoded = inl text ->
  read_csv text = inl data ->
  (In "Load_kN"%string (columns data) /\ In "Displacement_mm"%string (columns data) ->
   process_csv_data Frame columns b64decode utf8_decode read_csv unpack_message
     (header ++ String "," payload) filename = (Some data, None)) /\
  (~ (In "Load_kN"%string (columns data) /\ In "Displacement_mm"%string (columns data)) ->
   process_csv_data Frame columns b64decode utf8_decode read_csv unpack_message
     (header ++ String "," payload) filename
   = (None, Some "CSV must contain 'Load_kN' and 'Displacement_mm' columns."%string)).
Proof.
  intros Hh Hp Hb Hu Hr. unfold process_csv_data.
  rewrite body_header by exact Hh.
  rewrite (split_on_whole _ _ Hp), Hb, Hu, Hr.
  destruct (forallb (has_column (columns data)) required_columns) eqn:Hcols; simpl.
  - split; [reflexivity |].
    intros Hmissing. exfalso. apply Hmissing, required_columns_present, Hcols.
  - split; [| reflexivity].
    intros Hboth. apply required_columns_present in Hboth. congruence.
Qed.

(** X14 on a table of three columns, the required two last, and on a table
    whose load column is spelled in lower case. *)
Lemma X14_witness :
  process_csv_data (list string) (fun names => names) inl inl
    (fun text => inl (split_on ";" text)) (fun n => "unpack"%string)
    "data:text/csv;base64,Time_s;Displacement_mm;Load_kN"%string "test.csv"%string
  = (Some ["Time_s"; "Displacement_mm"; "Load_kN"]%string, None) /\
  process_csv_data (list string) (fun names => names) inl inl
    (fun text => inl (split_on ";" text)) (fun n => "unpack"%string)
    "data:text/csv;base64,load_kn;Displacement_mm"%string "test.csv"%string
  = (None, Some "CSV must contain 'Load_kN' and 'Displacement_mm' columns."%string).
Proof.
  split.
  - apply (proj1 (X14_required_columns (list string) (fun names => names) inl inl
                    (fun text => inl (split_on ";" text)) (fun n => "unpack"%string)
                    "data:text/csv;base64" "Time_s;Displacement_mm;Load_kN" "test.csv"
                    "Time_s;Displacement_mm;Load_kN" "Time_s;Displacement_mm;Load_kN"
                    ["Time_s"; "Displacement_mm"; "Load_kN"]%string
                    eq_refl eq_refl eq_refl eq_refl eq_refl)).
    simpl. auto.
  - apply (proj2 (X14_required_columns (list string) (fun names => names) inl inl
                    (fun text => inl (split_on ";" text)) (fun n => "unpack"%string)
                    "data:text/csv;base64" "load_kn;Displacement_mm" "test.csv"
                    "load_kn;Displacement_mm" "load_kn;Displacement_mm"
                    ["load_kn"; "Displacement_mm"]%string
                    eq_refl eq_refl eq_refl eq_refl eq_refl)).
    simpl. intros [[H | [H | []]] _]; discriminate H.
Defined.
